(** * lbrynet.schema.signer: claim signing, embedded in Rocq

    A shallow embedding of [src/lbrynet/schema/signer.py]: the signer class
    hierarchy ([NIST_ECDSASigner] and its three subclasses), raw signing
    ([sign]), the claim signing protocol ([sign_stream_claim]) and the curve
    registry ([get_signer]).

    Python values are modelled as the code has them: a [str] is a sequence
    of Unicode code points, [bytes] a list of bytes, a [dict] a finite map
    from [str] keys.  Exceptions and the calls into the hash and signature
    primitives are tracked by a small state-and-error monad, so that the
    order of validation and cryptographic work can be stated. *)

From Stdlib Require Import ZArith NArith List String Ascii Bool Lia.
From stdpp Require Import base option gmap list strings.

Set Warnings "-register-all".
Local Open Scope N_scope.

(** ** Python data *)

(** A Python [str]: its code points. *)
Definition pystr : Type := list N.

(** A Python [bytes] object. *)
Definition bytes : Type := list Byte.byte.

(** A string literal of the source, as a [str]. *)
Definition str (s : string) : pystr :=
  map N_of_ascii (list_ascii_of_string s).

(** The Python objects that occur in claim dictionaries. *)
Inductive pyobj : Type :=
| PyNone
| PyBool (b : bool)
| PyInt (z : Z)
| PyStr (s : pystr)
| PyBytes (b : bytes)
| PyList (l : list pyobj)
| PyDict (d : gmap pystr pyobj).

(** [o == s] for a [str] constant [s]: an object of another type is never
    equal to a [str]. *)
Definition py_eq_str (o : pyobj) (s : pystr) : bool :=
  match o with
  | PyStr t => bool_decide (t = s)
  | _ => false
  end.

(** Truthiness of a [str], as used by [assert name]. *)
Definition truthy (s : pystr) : bool :=
  match s with
  | [] => false
  | _ :: _ => true
  end.

(** *** [str.lower] and [str.encode] *)

Definition is_ascii (s : pystr) : bool := forallb (fun c => c <? 128) s.

Definition ascii_lower (c : N) : N :=
  if (65 <=? c) && (c <=? 90) then c + 32 else c.

Definition byte_of_N (n : N) : Byte.byte :=
  match Byte.of_N (n mod 256) with
  | Some b => b
  | None => Byte.x00
  end.

(** UTF-8 encoding of one code point; [None] for a surrogate (Python raises
    [UnicodeEncodeError]) and for a number that is no code point. *)
Definition utf8_encode_char (c : N) : option bytes :=
  if c <? 0x80 then Some [byte_of_N c]
  else if c <? 0x800 then
    Some [byte_of_N (N.lor 0xC0 (N.shiftr c 6));
          byte_of_N (N.lor 0x80 (N.land c 0x3F))]
  else if (0xD800 <=? c) && (c <=? 0xDFFF) then None
  else if c <? 0x10000 then
    Some [byte_of_N (N.lor 0xE0 (N.shiftr c 12));
          byte_of_N (N.lor 0x80 (N.land (N.shiftr c 6) 0x3F));
          byte_of_N (N.lor 0x80 (N.land c 0x3F))]
  else if c <? 0x110000 then
    Some [byte_of_N (N.lor 0xF0 (N.shiftr c 18));
          byte_of_N (N.lor 0x80 (N.land (N.shiftr c 12) 0x3F));
          byte_of_N (N.lor 0x80 (N.land (N.shiftr c 6) 0x3F));
          byte_of_N (N.lor 0x80 (N.land c 0x3F))]
  else None.

(** [s.encode()], with the default UTF-8 codec. *)
Fixpoint str_encode (s : pystr) : option bytes :=
  match s with
  | [] => Some []
  | c :: s' =>
      match utf8_encode_char c, str_encode s' with
      | Some b, Some bs => Some (b ++ bs)
      | _, _ => None
      end
  end.

(** *** [binascii.unhexlify] *)

Definition hex_digit (c : N) : option N :=
  if (48 <=? c) && (c <=? 57) then Some (c - 48)
  else if (97 <=? c) && (c <=? 102) then Some (c - 87)
  else if (65 <=? c) && (c <=? 70) then Some (c - 55)
  else None.

(** [binascii.unhexlify(s)]: [None] when Python raises (an odd length or a
    character that is no hexadecimal digit). *)
Fixpoint unhexlify (s : pystr) : option bytes :=
  match s with
  | [] => Some []
  | [_] => None
  | hi :: lo :: s' =>
      match hex_digit hi, hex_digit lo, unhexlify s' with
      | Some h, Some l, Some bs => Some (byte_of_N (16 * h + l) :: bs)
      | _, _, _ => None
      end
  end.

(** ** Constants of [lbrynet.schema.schema] *)

(** Modelled from the spec: the curve identifier constant [NIST256p] of
    [lbrynet.schema.schema], whose module is not part of the sources; the
    spec names the identifier ["NIST256p"]. *)
Definition NIST256p : pystr := str "NIST256p".

(** Modelled from the spec: the curve identifier constant [NIST384p] of
    [lbrynet.schema.schema]. *)
Definition NIST384p : pystr := str "NIST384p".

(** Modelled from the spec: the curve identifier constant [SECP256k1] of
    [lbrynet.schema.schema]. *)
Definition SECP256k1 : pystr := str "SECP256k1".

(** Modelled from the spec: the hash identifier constant [SHA256] of
    [lbrynet.schema.schema]; the spec names the identifier ["SHA256"]. *)
Definition SHA256 : pystr := str "SHA256".

(** Modelled from the spec: the hash identifier constant [SHA384] of
    [lbrynet.schema.schema]. *)
Definition SHA384 : pystr := str "SHA384".

(** ** The signer classes *)

(** The hash constructors of [hashlib] that the classes refer to. *)
Inductive hash_alg : Type := hashlib_sha256 | hashlib_sha384.

(** The curve objects of the [ecdsa] package that the classes refer to. *)
Inductive ecdsa_curve : Type := ecdsa_NIST256p | ecdsa_NIST384p | ecdsa_SECP256k1.

Inductive signer_class : Type :=
| NIST_ECDSASigner
| NIST256pSigner
| NIST384pSigner
| SECP256k1Signer.

(** Class attributes, with inheritance from [NIST_ECDSASigner] resolved. *)
Definition CURVE (cls : signer_class) : option ecdsa_curve :=
  match cls with
  | NIST_ECDSASigner => None
  | NIST256pSigner => Some ecdsa_NIST256p
  | NIST384pSigner => Some ecdsa_NIST384p
  | SECP256k1Signer => Some ecdsa_SECP256k1
  end.

Definition CURVE_NAME (cls : signer_class) : pyobj :=
  match cls with
  | NIST_ECDSASigner => PyNone
  | NIST256pSigner => PyStr NIST256p
  | NIST384pSigner => PyStr NIST384p
  | SECP256k1Signer => PyStr SECP256k1
  end.

Definition HASHFUNC (cls : signer_class) : hash_alg :=
  match cls with
  | NIST384pSigner => hashlib_sha384
  | _ => hashlib_sha256
  end.

Definition HASHFUNC_NAME (cls : signer_class) : pystr :=
  match cls with
  | NIST384pSigner => SHA384
  | _ => SHA256
  end.

(** ** Signature envelopes *)

(** Modelled from the spec: the values of [lbrynet.schema.signature], whose
    module is not part of the sources.  The spec gives the two shapes:
    [Legacy{version, curve_id, signature_bytes, certificate_id_bytes}] and
    [Detached{signature_bytes, certificate_id_bytes, signed_claim_bytes}];
    the detached one is built in the source as [NAMED_SECP256K1]. *)
Inductive Signature : Type :=
| Legacy (version curve_id : pyobj) (signature_bytes certificate_id_bytes : bytes)
| NAMED_SECP256K1 (signature_bytes certificate_id_bytes signed_claim_bytes : bytes).

Definition signature_of (s : Signature) : bytes :=
  match s with
  | Legacy _ _ sig _ => sig
  | NAMED_SECP256K1 sig _ _ => sig
  end.

(** ** Exceptions *)

Inductive exn : Type :=
| AssertionError (msg : pystr)
| Exception (msg : pystr)
| AttributeError (attr : pystr)
| KeyError (key : pystr)
| UnicodeEncodeError
| binascii_Error
| InvalidCertificateId      (* raised by [validate_claim_id] *)
| InvalidAddress            (* raised by [decode_address] *)
| BadDigestError            (* raised by the signature primitive *)
| DecodeError.              (* raised by the claim codec *)

(** The failures of the signer itself, under the names the spec gives them. *)
Definition MissingName : exn :=
  AssertionError (str "Name is required for detached signatures").

Definition NotASigningKey : exn :=
  Exception (str "Not given a signing key").

(** ** External collaborators

    What the signer calls but does not define: the hash and signature
    primitives ([hashlib], [ecdsa]), the address codec, the claim-id
    validator and the claim codec.  They are parameters of the development;
    every theorem below holds for all of them. *)

Class Collaborators : Type := {
  (** [str.lower] on a string with a non-ASCII character, and
      [str(o)] on an object that is neither a [str] nor [None]. *)
  unicode_lower : pystr -> pystr;
  repr : pyobj -> pystr;
  (** [hashlib.sha256(m).digest()] and [hashlib.sha384(m).digest()]. *)
  sha256 : bytes -> bytes;
  sha384 : bytes -> bytes;
  (** The contents of an [ecdsa.SigningKey] and of an [ecdsa.VerifyingKey]. *)
  signing_key : Type;
  verifying_key : Type;
  (** [key.sign_digest_deterministic(digest, hashfunc=h)]: the nonce is
      derived from the key, [h] and the digest; [None] when the primitive
      refuses the digest. *)
  sign_digest_deterministic : signing_key -> bytes -> hash_alg -> option bytes;
  (** [ecdsa.SigningKey.generate(curve=c, hashfunc=h)] draws the key from
      the system's entropy. *)
  entropy : Type;
  SigningKey_generate : ecdsa_curve -> pystr -> entropy -> signing_key * entropy;
  (** [validate_claim_id(s)] returns normally or raises. *)
  validate_claim_id : pystr -> bool;
  (** [decode_address(s)], [None] when it raises. *)
  decode_address : pystr -> option bytes;
  (** The claim codec: the protobuf message type, [Claim.load],
      [decode_b64_fields], [SerializeToString] and
      [Signature.flagged_parse]; [None] when they raise. *)
  proto : Type;
  Claim_load : gmap pystr pyobj -> option proto;
  decode_b64_fields : gmap pystr pyobj -> option (gmap pystr pyobj);
  SerializeToString : proto -> bytes;
  flagged_parse : bytes -> option Signature;
  (** The version constant [V_0_0_1] of [lbrynet.schema.schema]. *)
  V_0_0_1 : pyobj
}.

Section Signer.
Context `{C : Collaborators}.

(** [str.lower]: CPython maps an ASCII string character by character. *)
Definition str_lower (s : pystr) : pystr :=
  if is_ascii s then map ascii_lower s else unicode_lower s.

(** [str(o)], as used by ["%s" % str(curve)] and by the f-string. *)
Definition py_str (o : pyobj) : pystr :=
  match o with
  | PyStr s => s
  | PyNone => str "None"
  | _ => repr o
  end.

Definition UnsupportedCurveForDetached (curve_name : pyobj) : exn :=
  AssertionError (str "Only SECP256k1 is supported, not: " ++ py_str curve_name).

Definition UnknownCurve (curve : pyobj) : exn :=
  Exception (str "Unknown curve: " ++ py_str curve).

Definition digest (h : hash_alg) (m : bytes) : bytes :=
  match h with
  | hashlib_sha256 => sha256 m
  | hashlib_sha384 => sha384 m
  end.

(** *** Objects *)

(** What [__init__] may be handed as [private_key].  Python does not check
    it: besides a genuine [ecdsa.SigningKey] it can be an
    [ecdsa.VerifyingKey], which has no [sign_digest_deterministic], or any
    other object that offers that method. *)
Inductive key_object : Type :=
| SigningKey (k : signing_key)
| VerifyingKey (q : verifying_key)
| OtherKey (sign_method : bytes -> hash_alg -> bytes).

(** [isinstance(key, ecdsa.SigningKey)] *)
Definition isinstance_SigningKey (key : key_object) : bool :=
  match key with
  | SigningKey _ => true
  | _ => false
  end.

(** A signer instance: its class and the [_private_key] attribute. *)
Record signer : Type := Signer {
  cls : signer_class;
  _private_key : key_object
}.

Definition private_key (self : signer) : key_object := _private_key self.

(** A claim object, as far as the signer reads it. *)
Record claim_object : Type := Claim {
  serialized_no_signature : bytes;
  protobuf_dict : gmap pystr pyobj
}.

(** *** Effects *)

(** The calls into the cryptographic primitives, in the order they happen. *)
Inductive event : Type :=
| Hashed (h : hash_alg) (message : bytes)
| Signed (key : key_object) (dgst : bytes) (h : hash_alg).

Record world : Type := World {
  rng : entropy;
  log : list event
}.

(** A computation either returns or raises, and leaves a world behind. *)
Definition M (A : Type) : Type := world -> (exn + A) * world.

Definition ret {A} (a : A) : M A := fun w => (inr a, w).

Definition raise {A} (e : exn) : M A := fun w => (inl e, w).

Definition bind {A B} (m : M A) (k : A -> M B) : M B :=
  fun w =>
    match m w with
    | (inl e, w') => (inl e, w')
    | (inr a, w') => k a w'
    end.

#[export] Instance M_ret : MRet M := @ret.
#[export] Instance M_bind : MBind M := fun A B k m => bind m k.

Definition emit (e : event) : M unit :=
  fun w => (inr tt, World (rng w) (log w ++ [e])).

(** An external call that returns or raises [e]. *)
Definition call {A} (r : option A) (e : exn) : M A :=
  match r with
  | Some a => ret a
  | None => raise e
  end.

(** [assert cond, msg], as the interpreter runs it by default (assertions
    are not compiled away). *)
Definition assert (cond : bool) (e : exn) : M unit :=
  if cond then ret tt else raise e.

(** [hashfunc(m).digest()] *)
Definition hash_digest (h : hash_alg) (m : bytes) : M bytes :=
  _ ← emit (Hashed h m);
  mret (digest h m).

(** [key.sign_digest_deterministic(dgst, hashfunc=h)] on whatever object the
    signer holds. *)
Definition key_sign_digest_deterministic (key : key_object) (dgst : bytes)
    (h : hash_alg) : M bytes :=
  match key with
  | SigningKey k =>
      _ ← emit (Signed key dgst h);
      call (sign_digest_deterministic k dgst h) BadDigestError
  | VerifyingKey _ => raise (AttributeError (str "sign_digest_deterministic"))
  | OtherKey sign_method =>
      _ ← emit (Signed key dgst h);
      mret (sign_method dgst h)
  end.

(** *** Methods of [NIST_ECDSASigner] *)

(** [generate], a class method. *)
Definition generate (cls : signer_class) : M signer :=
  match CURVE cls with
  | Some c => fun w =>
      let (k, r) := SigningKey_generate c (HASHFUNC_NAME cls) (rng w) in
      (inr (Signer cls (SigningKey k)), World r (log w))
  | None => raise (AttributeError (str "order"))
  end.

(** [sign(self, *fields)] *)
Definition sign (self : signer) (fields : list bytes) : M bytes :=
  dgst ← hash_digest (HASHFUNC (cls self)) (concat fields);
  key_sign_digest_deterministic (private_key self) dgst (HASHFUNC (cls self)).

(** [sign_stream_claim(self, claim, claim_address, cert_claim_id, name,
    detached=False)] *)
Definition sign_stream_claim (self : signer) (claim : claim_object)
    (claim_address cert_claim_id name : pystr) (detached : bool)
    : M (proto * Signature) :=
  _ ← assert (validate_claim_id cert_claim_id) InvalidCertificateId;
  raw_cert_id ← call (unhexlify cert_claim_id) binascii_Error;
  decoded_addr ← call (decode_address claim_address) InvalidAddress;
  signature ←
    (if detached then
       _ ← assert (truthy name) MissingName;
       _ ← assert (py_eq_str (CURVE_NAME (cls self)) SECP256k1)
             (UnsupportedCurveForDetached (CURVE_NAME (cls self)));
       encoded_name ← call (str_encode (str_lower name)) UnicodeEncodeError;
       sign self [encoded_name; decoded_addr;
                  serialized_no_signature claim; raw_cert_id]
     else
       sign self [decoded_addr; serialized_no_signature claim; raw_cert_id]);
  if detached then
    fields ← call (decode_b64_fields (protobuf_dict claim)) DecodeError;
    loaded ← call (Claim_load fields) DecodeError;
    mret (loaded, NAMED_SECP256K1 signature raw_cert_id
                    (serialized_no_signature claim))
  else
    (* -- Legacy signer (signature inside protobuf) -- *)
    _ ← (if isinstance_SigningKey (private_key self) then mret tt
         else raise NotASigningKey);
    let sig_dict : gmap pystr pyobj :=
      <[str "certificateId" := PyBytes raw_cert_id]>
      (<[str "signature" := PyBytes signature]>
      (<[str "signatureType" := CURVE_NAME (cls self)]>
      (<[str "version" := V_0_0_1]> ∅))) in
    fields ← call (decode_b64_fields (protobuf_dict claim)) DecodeError;
    stream ← call (fields !! str "stream") (KeyError (str "stream"));
    let msg : gmap pystr pyobj :=
      <[str "publisherSignature" := PyDict sig_dict]>
      (<[str "stream" := stream]>
      (<[str "version" := V_0_0_1]> ∅)) in
    proto ← call (Claim_load msg) DecodeError;
    parsed ← call (flagged_parse (SerializeToString proto)) DecodeError;
    mret (proto, parsed).

(** [get_signer(curve)] returns a class. *)
Definition get_signer (curve : pyobj) : M signer_class :=
  if py_eq_str curve NIST256p then mret NIST256pSigner
  else if py_eq_str curve NIST384p then mret NIST384pSigner
  else if py_eq_str curve SECP256k1 then mret SECP256k1Signer
  else raise (UnknownCurve curve).

End Signer.

(** ** A concrete set of collaborators

    A small executable instance, on which the signer can be run: a claim id
    is forty hexadecimal digits, an address decodes to its UTF-8 bytes, and
    the claim codec keeps the signature descriptor of a field mapping and
    writes it as a tag byte, the signature with every byte escaped, a
    terminator and the certificate id. *)

Module Reference.

Definition is_hex (c : N) : bool :=
  match hex_digit c with
  | Some _ => true
  | None => false
  end.

Definition claim_id_ok (s : pystr) : bool :=
  (N.of_nat (length s) =? 40) && forallb is_hex s.

Definition address_bytes (s : pystr) : option bytes :=
  match s with
  | [] => None
  | _ => str_encode s
  end.

Definition digest256 (m : bytes) : bytes :=
  byte_of_N (N.of_nat (length m)) :: m.

Definition digest384 (m : bytes) : bytes :=
  byte_of_N (N.of_nat (length m)) :: rev m.

Definition sign_with (k dgst : bytes) (h : hash_alg)
    : option bytes :=
  Some (k ++ dgst).

Definition keygen (c : ecdsa_curve) (h : pystr) (seed : N)
    : bytes * N :=
  ([byte_of_N seed], seed + 1).

Definition version : pyobj := PyStr (str "_0_0_1").

(** The protobuf message: the signature descriptor of the claim, if any. *)
Definition message : Type := option (signer_class * bytes * bytes).

Definition class_of_curve_name (o : pyobj) : signer_class :=
  if py_eq_str o NIST256p then NIST256pSigner
  else if py_eq_str o NIST384p then NIST384pSigner
  else if py_eq_str o SECP256k1 then SECP256k1Signer
  else NIST_ECDSASigner.

Definition load (msg : gmap pystr pyobj) : option message :=
  match msg !! str "publisherSignature" with
  | Some (PyDict d) =>
      match d !! str "signatureType", d !! str "signature",
            d !! str "certificateId" with
      | Some t, Some (PyBytes s), Some (PyBytes c) =>
          Some (Some (class_of_curve_name t, s, c))
      | _, _, _ => None
      end
  | Some _ => None
  | None => Some None
  end.

Definition normalize (d : gmap pystr pyobj)
    : option (gmap pystr pyobj) :=
  Some d.

Definition tag (cls : signer_class) : Byte.byte :=
  match cls with
  | NIST_ECDSASigner => Byte.x00
  | NIST256pSigner => Byte.x01
  | NIST384pSigner => Byte.x02
  | SECP256k1Signer => Byte.x03
  end.

Definition class_of_tag (b : Byte.byte) : signer_class :=
  if Byte.eqb b Byte.x01 then NIST256pSigner
  else if Byte.eqb b Byte.x02 then NIST384pSigner
  else if Byte.eqb b Byte.x03 then SECP256k1Signer
  else NIST_ECDSASigner.

Fixpoint escape (s : bytes) : bytes :=
  match s with
  | [] => [Byte.x00]
  | b :: s' => Byte.x01 :: b :: escape s'
  end.

Definition serialize (p : message) : bytes :=
  match p with
  | Some (cls, s, c) => tag cls :: escape s ++ c
  | None => []
  end.

(** Reads an escaped signature and returns it with the bytes that follow. *)
Fixpoint unescape (b : bytes) : option (bytes * bytes) :=
  match b with
  | [] => None
  | [m] => if Byte.eqb m Byte.x00 then Some ([], []) else None
  | m :: ((x :: rest') as rest) =>
      if Byte.eqb m Byte.x00 then Some ([], rest)
      else
        match unescape rest' with
        | Some (s, c) => Some (x :: s, c)
        | None => None
        end
  end.

Definition parse (b : bytes) : option Signature :=
  match b with
  | [] => None
  | t :: body =>
      match unescape body with
      | Some (s, c) => Some (Legacy version (CURVE_NAME (class_of_tag t)) s c)
      | None => None
      end
  end.

#[export] Instance collaborators : Collaborators := {|
  unicode_lower := fun s => s;
  repr := fun _ => str "<object>";
  sha256 := digest256;
  sha384 := digest384;
  signing_key := bytes;
  verifying_key := bytes;
  sign_digest_deterministic := sign_with;
  entropy := N;
  SigningKey_generate := keygen;
  validate_claim_id := claim_id_ok;
  decode_address := address_bytes;
  proto := message;
  Claim_load := load;
  decode_b64_fields := normalize;
  SerializeToString := serialize;
  flagged_parse := parse;
  V_0_0_1 := version
|}.

(** Concrete inputs. *)
Definition cert_id : pystr := str "00112233445566778899aabbccddeeff00112233".
Definition address : pystr := str "bXyZ".
Definition key : bytes := [Byte.x2a].
Definition w0 : world := World 7 [].

Definition stream_claim : claim_object :=
  Claim [Byte.x0a; Byte.x0b]
        (<[str "stream" := PyStr (str "video")]>
         (<[str "version" := version]> ∅)).

Definition certificate_claim : claim_object :=
  Claim [Byte.x0c]
        (<[str "certificate" := PyStr (str "key")]>
         (<[str "version" := version]> ∅)).

Definition raw_cert_id : bytes :=
  [Byte.x00; Byte.x11; Byte.x22; Byte.x33; Byte.x44; Byte.x55; Byte.x66;
   Byte.x77; Byte.x88; Byte.x99; Byte.xaa; Byte.xbb; Byte.xcc; Byte.xdd;
   Byte.xee; Byte.xff; Byte.x00; Byte.x11; Byte.x22; Byte.x33].

Definition decoded_addr : bytes := [Byte.x62; Byte.x58; Byte.x79; Byte.x5a].

(** ["foo"] in UTF-8. *)
Definition foo_bytes : bytes := [Byte.x66; Byte.x6f; Byte.x6f].

Definition secp256k1_signer : signer := Signer SECP256k1Signer (SigningKey key).
Definition nist256p_signer : signer := Signer NIST256pSigner (SigningKey key).
Definition nist384p_signer : signer := Signer NIST384pSigner (SigningKey key).

(** A signer holding a verifying key, and one holding an object of another
    class that signs by prefixing the digest. *)
Definition verifying_signer : signer := Signer NIST256pSigner (VerifyingKey key).

Definition proxy_sign (dgst : bytes) (h : hash_alg) : bytes := Byte.xff :: dgst.
Definition proxy_signer : signer := Signer NIST256pSigner (OtherKey proxy_sign).

End Reference.

(** ** Vocabulary of the statements *)

Section Vocabulary.
Context `{C : Collaborators}.

(** What [key.sign_digest_deterministic(dgst, hashfunc=h)] returns or
    raises, and the primitive calls it makes. *)
Definition sign_outcome (key : key_object) (dgst : bytes) (h : hash_alg)
    : exn + bytes :=
  match key with
  | SigningKey k =>
      match sign_digest_deterministic k dgst h with
      | Some s => inr s
      | None => inl BadDigestError
      end
  | VerifyingKey _ => inl (AttributeError (str "sign_digest_deterministic"))
  | OtherKey sign_method => inr (sign_method dgst h)
  end.

Definition sign_events (key : key_object) (dgst : bytes) (h : hash_alg)
    : list event :=
  match key with
  | VerifyingKey _ => []
  | _ => [Signed key dgst h]
  end.

(** The world after hashing [message] with [h] and handing the digest to
    [key]. *)
Definition after_signing (w : world) (key : key_object) (h : hash_alg)
    (message : bytes) : world :=
  World (rng w)
    (log w ++ Hashed h message :: sign_events key (digest h message) h).

(** The signature descriptor and the field mapping that the legacy path
    builds. *)
Definition publisher_signature (curve_name : pyobj)
    (signature raw_cert_id : bytes) : gmap pystr pyobj :=
  <[str "certificateId" := PyBytes raw_cert_id]>
  (<[str "signature" := PyBytes signature]>
  (<[str "signatureType" := curve_name]>
  (<[str "version" := V_0_0_1]> ∅))).

Definition legacy_fields (stream : pyobj) (sig_dict : gmap pystr pyobj)
    : gmap pystr pyobj :=
  <[str "publisherSignature" := PyDict sig_dict]>
  (<[str "stream" := stream]>
  (<[str "version" := V_0_0_1]> ∅)).

(** Modelled from the spec: the contract of the claim codec and of the
    signature parser ([Claim.load], [SerializeToString] and
    [Signature.flagged_parse] of [lbrynet.schema]), whose modules are not
    part of the sources.  The spec: the parser, "given fully serialized
    claim bytes, extracts an embedded publisherSignature back into a
    structured envelope", the [Legacy] envelope being
    [{version, curve_id, signature_bytes, certificate_id_bytes}]. *)
Definition parser_extracts_publisherSignature : Prop :=
  forall (msg : gmap pystr pyobj) (signer_cls : signer_class)
         (signature raw_cert_id : bytes) (p : proto),
    msg !! str "publisherSignature" =
      Some (PyDict (publisher_signature (CURVE_NAME signer_cls)
                      signature raw_cert_id)) ->
    Claim_load msg = Some p ->
    flagged_parse (SerializeToString p) =
      Some (Legacy V_0_0_1 (CURVE_NAME signer_cls) signature raw_cert_id).

(** A computation whose outcome does not depend on the world it starts in
    and that leaves the entropy untouched. *)
Definition deterministic {A} (m : M A) : Prop :=
  forall w1 w2 : world,
    fst (m w1) = fst (m w2) /\ rng (snd (m w1)) = rng w1.

End Vocabulary.

(** ** Loading a key *)

(** [ecdsa.SigningKey.from_pem(pem, hashfunc=h)]: the key, or the exception
    the [ecdsa] package raises on a string it cannot read. *)
Class KeyLoader `{C : Collaborators} : Type := {
  SigningKey_from_pem : pystr -> pystr -> exn + signing_key
}.

Section Loading.
Context `{L : KeyLoader}.

(** [load_pem], a class method. *)
Definition load_pem (cls : signer_class) (pem_string : pystr) : M signer :=
  match SigningKey_from_pem pem_string (HASHFUNC_NAME cls) with
  | inr k => ret (Signer cls (SigningKey k))
  | inl e => raise e
  end.

End Loading.

(** The exceptions of [sign_stream_claim] that are raised by the statements
    that precede the call of [sign]. *)
Definition raised_before_hashing (e : exn) : bool :=
  match e with
  | InvalidCertificateId | binascii_Error | InvalidAddress
  | AssertionError _ | UnicodeEncodeError => true
  | _ => false
  end.

(** More concrete inputs for the reference collaborators. *)
Module ReferenceInputs.
Import Reference.

(** A PEM string is read as its UTF-8 bytes; the empty string is refused. *)
Definition from_pem (pem hashfunc_name : pystr) : exn + bytes :=
  match str_encode pem with
  | Some (b :: bs) => inr (b :: bs)
  | _ => inl binascii_Error
  end.

#[export] Instance loader : KeyLoader := {|
  SigningKey_from_pem := from_pem
|}.

(** The certificate id of [Reference.cert_id] in upper case. *)
Definition cert_id_upper : pystr :=
  str "00112233445566778899AABBCCDDEEFF00112233".

(** A name that is one lone surrogate. *)
Definition surrogate_name : pystr := [0xD800].

End ReferenceInputs.

(** * Properties *)

(** ** Running computations *)

Section Running.
Context `{C : Collaborators}.

Lemma run_bind {A B} (m : M A) (k : A -> M B) (w : world) :
  (m ≫= k) w =
    match m w with
    | (inl e, w') => (inl e, w')
    | (inr a, w') => k a w'
    end.
Proof. reflexivity. Qed.

Lemma run_hash_digest (h : hash_alg) (m : bytes) (w : world) :
  hash_digest h m w = (inr (digest h m), World (rng w) (log w ++ [Hashed h m])).
Proof. reflexivity. Qed.

(** The method call on the key object, split into its outcome and the
    primitive calls it logs. *)
Lemma run_key_sign (key : key_object) (dgst : bytes) (h : hash_alg) (w : world) :
  key_sign_digest_deterministic key dgst h w =
    (sign_outcome key dgst h,
     World (rng w) (log w ++ sign_events key dgst h)).
Proof.
  destruct key as [k | q | f]; cbn.
  - unfold mbind, M_bind, bind, emit, call.
    now destruct (sign_digest_deterministic k dgst h).
  - rewrite app_nil_r. now destruct w.
  - reflexivity.
Qed.

(** [sign]: one hash of the joined fields, then the digest goes to the key. *)
Lemma run_sign (self : signer) (fields : list bytes) (w : world) :
  let h := HASHFUNC (cls self) in
  sign self fields w =
    (sign_outcome (private_key self) (digest h (concat fields)) h,
     after_signing w (private_key self) h (concat fields)).
Proof.
  intros h. unfold sign. rewrite run_bind, run_hash_digest, run_key_sign.
  unfold after_signing. cbn [rng log]. now rewrite <- app_assoc.
Qed.

Lemma truthy_nonempty (s : pystr) : s <> [] -> truthy s = true.
Proof. now destruct s. Qed.

Lemma py_eq_str_false (o : pyobj) (s : pystr) :
  o <> PyStr s -> py_eq_str o s = false.
Proof.
  destruct o; try reflexivity. intros Hne. cbn.
  apply bool_decide_eq_false_2. congruence.
Qed.

Lemma CURVE_NAME_not_SECP256k1 (signer_cls : signer_class) :
  signer_cls <> SECP256k1Signer ->
  py_eq_str (CURVE_NAME signer_cls) SECP256k1 = false.
Proof. now destruct signer_cls. Qed.

(** A detached run whose checks pass: the outcome of the signature decides,
    then the codec. *)
Lemma run_detached (self : signer) (claim : claim_object)
    (claim_address cert_claim_id name : pystr) (w : world)
    (raw_cert_id decoded_addr encoded_name : bytes) :
  validate_claim_id cert_claim_id = true ->
  unhexlify cert_claim_id = Some raw_cert_id ->
  decode_address claim_address = Some decoded_addr ->
  name <> [] ->
  cls self = SECP256k1Signer ->
  str_encode (str_lower name) = Some encoded_name ->
  let signed := encoded_name ++ decoded_addr ++
                serialized_no_signature claim ++ raw_cert_id in
  let w' := after_signing w (private_key self) hashlib_sha256 signed in
  sign_stream_claim self claim claim_address cert_claim_id name true w =
    match sign_outcome (private_key self) (sha256 signed) hashlib_sha256 with
    | inl e => (inl e, w')
    | inr signature =>
        match decode_b64_fields (protobuf_dict claim) with
        | None => (inl DecodeError, w')
        | Some fields =>
            match Claim_load fields with
            | None => (inl DecodeError, w')
            | Some loaded =>
                (inr (loaded, NAMED_SECP256K1 signature raw_cert_id
                                (serialized_no_signature claim)), w')
            end
        end
    end.
Proof.
  intros Hv Hx Ha Hn Hc He signed w'.
  pose proof (run_sign self
    [encoded_name; decoded_addr; serialized_no_signature claim; raw_cert_id]
    w) as Hs.
  rewrite Hc in Hs. cbn [HASHFUNC digest] in Hs.
  replace (concat [encoded_name; decoded_addr;
                   serialized_no_signature claim; raw_cert_id])
    with signed in Hs
    by (unfold signed; cbn [concat]; now rewrite app_nil_r).
  fold w' in Hs.
  unfold sign_stream_claim, mbind, M_bind, bind.
  rewrite Hv, Hx, Ha, (truthy_nonempty _ Hn), He, Hc.
  cbn [assert call ret raise CURVE_NAME py_eq_str].
  rewrite bool_decide_eq_true_2 by reflexivity.
  cbn [assert call ret raise]. rewrite Hs.
  destruct (sign_outcome _ _ _); [reflexivity|].
  destruct (decode_b64_fields (protobuf_dict claim)); [|reflexivity].
  cbn [call ret raise].
  now destruct (Claim_load _).
Qed.

(** A legacy run whose checks pass: the signature is computed first, the
    key is inspected next, then the codec runs. *)
Lemma run_legacy (self : signer) (claim : claim_object)
    (claim_address cert_claim_id name : pystr) (w : world)
    (raw_cert_id decoded_addr : bytes) :
  validate_claim_id cert_claim_id = true ->
  unhexlify cert_claim_id = Some raw_cert_id ->
  decode_address claim_address = Some decoded_addr ->
  let h := HASHFUNC (cls self) in
  let signed := decoded_addr ++ serialized_no_signature claim ++ raw_cert_id in
  let w' := after_signing w (private_key self) h signed in
  sign_stream_claim self claim claim_address cert_claim_id name false w =
    match sign_outcome (private_key self) (digest h signed) h with
    | inl e => (inl e, w')
    | inr signature =>
        if isinstance_SigningKey (private_key self) then
          match decode_b64_fields (protobuf_dict claim) with
          | None => (inl DecodeError, w')
          | Some fields =>
              match fields !! str "stream" with
              | None => (inl (KeyError (str "stream")), w')
              | Some stream =>
                  match Claim_load
                          (legacy_fields stream
                             (publisher_signature (CURVE_NAME (cls self))
                                signature raw_cert_id)) with
                  | None => (inl DecodeError, w')
                  | Some p =>
                      match flagged_parse (SerializeToString p) with
                      | None => (inl DecodeError, w')
                      | Some parsed => (inr (p, parsed), w')
                      end
                  end
              end
          end
        else (inl NotASigningKey, w')
    end.
Proof.
  intros Hv Hx Ha h signed w'.
  pose proof (run_sign self
    [decoded_addr; serialized_no_signature claim; raw_cert_id] w) as Hs.
  replace (concat [decoded_addr; serialized_no_signature claim; raw_cert_id])
    with signed in Hs
    by (unfold signed; cbn [concat]; now rewrite app_nil_r).
  cbn zeta in Hs. fold h in Hs. fold w' in Hs.
  unfold sign_stream_claim, mbind, M_bind, bind.
  rewrite Hv, Hx, Ha. cbn [assert call ret raise]. rewrite Hs.
  destruct (sign_outcome _ _ _); [reflexivity|].
  destruct (isinstance_SigningKey _); [|reflexivity].
  unfold mret, M_ret, ret.
  destruct (decode_b64_fields (protobuf_dict claim)); [|reflexivity].
  cbn [call ret raise].
  destruct (_ !! str "stream"); [|reflexivity].
  cbn [call ret raise].
  change (<[str "publisherSignature" := PyDict ?d]> (<[_ := ?s]> _))
    with (legacy_fields s d).
  destruct (Claim_load _); [|reflexivity].
  cbn [call ret raise].
  now destruct (flagged_parse _).
Qed.

End Running.

(** ** Raw signing and the world *)

Section Determinism.
Context `{C : Collaborators}.

Lemma deterministic_sign (self : signer) (fields : list bytes) :
  deterministic (sign self fields).
Proof. intros w1 w2. now rewrite !run_sign. Qed.

End Determinism.

(** ** The dictionaries of the legacy path *)

Section Dictionaries.
Context `{C : Collaborators}.

Ltac distinct_keys :=
  let H := fresh in intros H; vm_compute in H; discriminate H.

Lemma publisher_signature_signatureType (curve_name : pyobj)
    (signature raw_cert_id : bytes) :
  publisher_signature curve_name signature raw_cert_id
    !! str "signatureType" = Some curve_name.
Proof.
  unfold publisher_signature.
  rewrite !lookup_insert_ne by distinct_keys.
  apply lookup_insert_eq.
Qed.

Lemma publisher_signature_signature (curve_name : pyobj)
    (signature raw_cert_id : bytes) :
  publisher_signature curve_name signature raw_cert_id
    !! str "signature" = Some (PyBytes signature).
Proof.
  unfold publisher_signature.
  rewrite lookup_insert_ne by distinct_keys.
  apply lookup_insert_eq.
Qed.

Lemma publisher_signature_certificateId (curve_name : pyobj)
    (signature raw_cert_id : bytes) :
  publisher_signature curve_name signature raw_cert_id
    !! str "certificateId" = Some (PyBytes raw_cert_id).
Proof. unfold publisher_signature. apply lookup_insert_eq. Qed.

Lemma legacy_fields_publisherSignature (stream : pyobj)
    (sig_dict : gmap pystr pyobj) :
  legacy_fields stream sig_dict !! str "publisherSignature" =
    Some (PyDict sig_dict).
Proof. unfold legacy_fields. apply lookup_insert_eq. Qed.

Lemma legacy_fields_stream (stream : pyobj) (sig_dict : gmap pystr pyobj) :
  legacy_fields stream sig_dict !! str "stream" = Some stream.
Proof.
  unfold legacy_fields.
  rewrite lookup_insert_ne by distinct_keys.
  apply lookup_insert_eq.
Qed.

End Dictionaries.

(** ** The reference codec meets the parser's contract *)

Section ReferenceCodec.
Import Reference.

Lemma unescape_escape (s c : bytes) : unescape (escape s ++ c) = Some (s, c).
Proof.
  induction s as [| b s IH]; cbn [escape app].
  - now destruct c.
  - change (unescape (Byte.x01 :: b :: escape s ++ c))
      with (match unescape (escape s ++ c) with
            | Some (s', c') => Some (b :: s', c')
            | None => None
            end).
    now rewrite IH.
Qed.

Lemma class_of_tag_tag (signer_cls : signer_class) :
  class_of_tag (tag signer_cls) = signer_cls.
Proof. now destruct signer_cls. Qed.

Lemma class_of_curve_name_CURVE_NAME (signer_cls : signer_class) :
  class_of_curve_name (CURVE_NAME signer_cls) = signer_cls.
Proof. now destruct signer_cls. Qed.

Lemma reference_codec_contract : parser_extracts_publisherSignature.
Proof.
  intros msg signer_cls signature raw_cert_id p Hmsg Hload.
  cbn in Hload. unfold load in Hload. rewrite Hmsg in Hload.
  rewrite publisher_signature_signatureType, publisher_signature_signature,
    publisher_signature_certificateId in Hload.
  injection Hload as <-.
  rewrite class_of_curve_name_CURVE_NAME.
  cbn [SerializeToString collaborators serialize flagged_parse parse].
  now rewrite unescape_escape, class_of_tag_tag.
Qed.

End ReferenceCodec.

(** ** The signed byte sequence *)

Section SignedBytes.
Context `{C : Collaborators}.

(** In detached mode the name enters only through its truth value and its
    lower-cased form. *)
Lemma detached_name_lower (self : signer) (claim : claim_object)
    (claim_address cert_claim_id name1 name2 : pystr) (w : world) :
  truthy name1 = truthy name2 ->
  str_lower name1 = str_lower name2 ->
  sign_stream_claim self claim claim_address cert_claim_id name1 true w =
  sign_stream_claim self claim claim_address cert_claim_id name2 true w.
Proof.
  intros Ht Hl. unfold sign_stream_claim. now rewrite Ht, Hl.
Qed.

(** C1.  Detached mode, with a certificate id that validates and decodes,
    an address that decodes, a non-empty name and a SECP256k1 signer: the
    one message that is hashed, and whose digest is handed to the key, is
    the lower-cased UTF-8 name, then the decoded address, then the claim's
    signature-excluded bytes, then the hex-decoded certificate id; with a
    signing key and a codec that accept, the envelope returned carries the
    signature of exactly that digest.  Consequently the names ["Foo"] and
    ["foo"] give the same outcome, all other inputs being equal. *)
Theorem detached_signed_bytes (self : signer) (claim : claim_object)
    (claim_address cert_claim_id name : pystr) (w : world)
    (raw_cert_id decoded_addr encoded_name : bytes) :
  validate_claim_id cert_claim_id = true ->
  unhexlify cert_claim_id = Some raw_cert_id ->
  decode_address claim_address = Some decoded_addr ->
  name <> [] ->
  cls self = SECP256k1Signer ->
  str_encode (str_lower name) = Some encoded_name ->
  let signed := encoded_name ++ decoded_addr ++
                serialized_no_signature claim ++ raw_cert_id in
  let run := fun n =>
    sign_stream_claim self claim claim_address cert_claim_id n true w in
  log (snd (run name)) =
    log w ++ Hashed hashlib_sha256 signed
          :: sign_events (private_key self) (sha256 signed) hashlib_sha256
  /\ (forall (k : signing_key) (signature : bytes)
             (fields : gmap pystr pyobj) (loaded : proto),
        private_key self = SigningKey k ->
        sign_digest_deterministic k (sha256 signed) hashlib_sha256
          = Some signature ->
        decode_b64_fields (protobuf_dict claim) = Some fields ->
        Claim_load fields = Some loaded ->
        run name =
          (inr (loaded, NAMED_SECP256K1 signature raw_cert_id
                          (serialized_no_signature claim)),
           World (rng w)
             (log w ++ [Hashed hashlib_sha256 signed;
                        Signed (SigningKey k) (sha256 signed) hashlib_sha256])))
  /\ run (str "Foo") = run (str "foo").
Proof.
  intros Hv Hx Ha Hn Hc He signed run.
  pose proof (run_detached self claim claim_address cert_claim_id name w
                raw_cert_id decoded_addr encoded_name Hv Hx Ha Hn Hc He) as Hrun.
  cbn zeta in Hrun. fold signed in Hrun.
  split; [|split].
  - unfold run. rewrite Hrun.
    destruct (sign_outcome _ _ _); [reflexivity|].
    destruct (decode_b64_fields _); [|reflexivity].
    now destruct (Claim_load _).
  - intros k signature fields loaded Hk Hs Hd Hl. unfold run.
    rewrite Hrun, Hk. cbn [sign_outcome]. rewrite Hs, Hd, Hl.
    reflexivity.
  - unfold run. now apply detached_name_lower.
Qed.

(** C2.  Legacy mode, with a certificate id that validates and decodes and
    an address that decodes: the one message that is hashed, and whose
    digest is handed to the key, is the decoded address, then the claim's
    signature-excluded bytes, then the hex-decoded certificate id; when key
    and codec accept, the call returns with exactly these two primitive
    calls made.  The name does not enter: any other name gives the same
    outcome. *)
Theorem legacy_signed_bytes (self : signer) (claim : claim_object)
    (claim_address cert_claim_id name : pystr) (w : world)
    (raw_cert_id decoded_addr : bytes) :
  validate_claim_id cert_claim_id = true ->
  unhexlify cert_claim_id = Some raw_cert_id ->
  decode_address claim_address = Some decoded_addr ->
  let h := HASHFUNC (cls self) in
  let signed := decoded_addr ++ serialized_no_signature claim ++ raw_cert_id in
  let run := fun n =>
    sign_stream_claim self claim claim_address cert_claim_id n false w in
  log (snd (run name)) =
    log w ++ Hashed h signed
          :: sign_events (private_key self) (digest h signed) h
  /\ (forall (k : signing_key) (signature : bytes)
             (fields : gmap pystr pyobj) (stream : pyobj) (p : proto)
             (parsed : Signature),
        private_key self = SigningKey k ->
        sign_digest_deterministic k (digest h signed) h = Some signature ->
        decode_b64_fields (protobuf_dict claim) = Some fields ->
        fields !! str "stream" = Some stream ->
        Claim_load
          (legacy_fields stream
             (publisher_signature (CURVE_NAME (cls self)) signature
                raw_cert_id)) = Some p ->
        flagged_parse (SerializeToString p) = Some parsed ->
        run name =
          (inr (p, parsed),
           World (rng w)
             (log w ++ [Hashed h signed;
                        Signed (SigningKey k) (digest h signed) h])))
  /\ (forall other_name : pystr, run other_name = run name).
Proof.
  intros Hv Hx Ha h signed run.
  pose proof (run_legacy self claim claim_address cert_claim_id name w
                raw_cert_id decoded_addr Hv Hx Ha) as Hrun.
  cbn zeta in Hrun. fold h signed in Hrun.
  split; [|split].
  - unfold run. rewrite Hrun.
    destruct (sign_outcome _ _ _); [reflexivity|].
    destruct (isinstance_SigningKey _); [|reflexivity].
    destruct (decode_b64_fields _); [|reflexivity].
    destruct (_ !! str "stream"); [|reflexivity].
    destruct (Claim_load _); [|reflexivity].
    now destruct (flagged_parse _).
  - intros k signature fields stream p parsed Hk Hs Hd Hst Hl Hp. unfold run.
    rewrite Hrun, Hk. cbn [sign_outcome isinstance_SigningKey].
    rewrite Hs, Hd, Hst, Hl, Hp. reflexivity.
  - intros other_name. reflexivity.
Qed.

(** C5.  A certificate id that fails validation makes the call fail with
    [InvalidCertificateId] in the world it started in: nothing was hashed
    and the signing primitive was not called. *)
Theorem invalid_certificate_id_rejected (self : signer) (claim : claim_object)
    (claim_address cert_claim_id name : pystr) (detached : bool) (w : world) :
  validate_claim_id cert_claim_id = false ->
  sign_stream_claim self claim claim_address cert_claim_id name detached w =
    (inl InvalidCertificateId, w)
  /\ log (snd (sign_stream_claim self claim claim_address cert_claim_id name
                 detached w)) = log w.
Proof.
  intros Hv.
  assert (sign_stream_claim self claim claim_address cert_claim_id name
            detached w = (inl InvalidCertificateId, w)) as ->; [|easy].
  unfold sign_stream_claim. rewrite run_bind, Hv. reflexivity.
Qed.

End SignedBytes.

Section SignedBytesWitnesses.
Import Reference.

Lemma detached_signed_bytes_witness :
  validate_claim_id cert_id = true /\
  unhexlify cert_id = Some raw_cert_id /\
  decode_address address = Some decoded_addr /\
  str "Foo" <> [] /\
  cls secp256k1_signer = SECP256k1Signer /\
  str_encode (str_lower (str "Foo")) = Some foo_bytes /\
  private_key secp256k1_signer = SigningKey key /\
  log (snd (sign_stream_claim secp256k1_signer stream_claim address cert_id
              (str "Foo") true w0)) =
    [Hashed hashlib_sha256
       (foo_bytes ++ decoded_addr ++ [Byte.x0a; Byte.x0b] ++ raw_cert_id);
     Signed (SigningKey key)
       (sha256 (foo_bytes ++ decoded_addr ++ [Byte.x0a; Byte.x0b]
                ++ raw_cert_id))
       hashlib_sha256] /\
  sign_stream_claim secp256k1_signer stream_claim address cert_id
    (str "Foo") true w0 =
    (inr (None,
          NAMED_SECP256K1
            (key ++ sha256 (foo_bytes ++ decoded_addr ++ [Byte.x0a; Byte.x0b]
                            ++ raw_cert_id))
            raw_cert_id [Byte.x0a; Byte.x0b]),
     World 7
       [Hashed hashlib_sha256
          (foo_bytes ++ decoded_addr ++ [Byte.x0a; Byte.x0b] ++ raw_cert_id);
        Signed (SigningKey key)
          (sha256 (foo_bytes ++ decoded_addr ++ [Byte.x0a; Byte.x0b]
                   ++ raw_cert_id))
          hashlib_sha256]) /\
  sign_stream_claim secp256k1_signer stream_claim address cert_id
    (str "Foo") true w0 =
  sign_stream_claim secp256k1_signer stream_claim address cert_id
    (str "foo") true w0.
Proof.
  pose proof (detached_signed_bytes secp256k1_signer stream_claim address
                cert_id (str "Foo") w0 raw_cert_id decoded_addr foo_bytes
                eq_refl eq_refl eq_refl ltac:(discriminate) eq_refl eq_refl)
    as [Hlog [Hrun Hfoo]].
  do 3 (split; [reflexivity|]).
  split; [discriminate|].
  do 3 (split; [reflexivity|]).
  split; [exact Hlog|].
  split; [|exact Hfoo].
  exact (Hrun key _ (protobuf_dict stream_claim) None
           eq_refl eq_refl eq_refl eq_refl).
Defined.

Lemma legacy_signed_bytes_witness :
  validate_claim_id cert_id = true /\
  unhexlify cert_id = Some raw_cert_id /\
  decode_address address = Some decoded_addr /\
  private_key nist384p_signer = SigningKey key /\
  log (snd (sign_stream_claim nist384p_signer stream_claim address cert_id
              (str "Foo") false w0)) =
    [Hashed hashlib_sha384 (decoded_addr ++ [Byte.x0a; Byte.x0b] ++ raw_cert_id);
     Signed (SigningKey key)
       (sha384 (decoded_addr ++ [Byte.x0a; Byte.x0b] ++ raw_cert_id))
       hashlib_sha384] /\
  sign_stream_claim nist384p_signer stream_claim address cert_id
    (str "Foo") false w0 =
    (inr (Some (NIST384pSigner,
                key ++ sha384 (decoded_addr ++ [Byte.x0a; Byte.x0b]
                               ++ raw_cert_id),
                raw_cert_id),
          Legacy V_0_0_1 (PyStr NIST384p)
            (key ++ sha384 (decoded_addr ++ [Byte.x0a; Byte.x0b]
                            ++ raw_cert_id))
            raw_cert_id),
     World 7
       [Hashed hashlib_sha384
          (decoded_addr ++ [Byte.x0a; Byte.x0b] ++ raw_cert_id);
        Signed (SigningKey key)
          (sha384 (decoded_addr ++ [Byte.x0a; Byte.x0b] ++ raw_cert_id))
          hashlib_sha384]) /\
  sign_stream_claim nist384p_signer stream_claim address cert_id [] false w0 =
  sign_stream_claim nist384p_signer stream_claim address cert_id
    (str "Foo") false w0.
Proof.
  pose proof (legacy_signed_bytes nist384p_signer stream_claim address
                cert_id (str "Foo") w0 raw_cert_id decoded_addr
                eq_refl eq_refl eq_refl)
    as [Hlog [Hrun Hname]].
  do 4 (split; [reflexivity|]).
  split; [exact Hlog|].
  split; [|exact (Hname [])].
  exact (Hrun key _ (protobuf_dict stream_claim) (PyStr (str "video")) _ _
           eq_refl eq_refl eq_refl eq_refl eq_refl eq_refl).
Defined.

Lemma invalid_certificate_id_rejected_witness :
  validate_claim_id (str "xyz") = false /\
  sign_stream_claim secp256k1_signer stream_claim address (str "xyz")
    (str "Foo") true w0 = (inl InvalidCertificateId, w0).
Proof.
  split; [reflexivity|].
  apply (invalid_certificate_id_rejected secp256k1_signer stream_claim address
           (str "xyz") (str "Foo") true w0 eq_refl).
Defined.

End SignedBytesWitnesses.

(** ** Preconditions and the order of the checks *)

Section Preconditions.
Context `{C : Collaborators}.

(** A call that returns has passed the three checks that open it. *)
Lemma returned_call_passed_checks (self : signer) (claim : claim_object)
    (claim_address cert_claim_id name : pystr) (detached : bool) (w w' : world)
    (r : proto * Signature) :
  sign_stream_claim self claim claim_address cert_claim_id name detached w
    = (inr r, w') ->
  exists raw_cert_id decoded_addr : bytes,
    validate_claim_id cert_claim_id = true /\
    unhexlify cert_claim_id = Some raw_cert_id /\
    decode_address claim_address = Some decoded_addr.
Proof.
  unfold sign_stream_claim, mbind, M_bind, bind. intros Hret.
  destruct (validate_claim_id cert_claim_id); [|discriminate Hret].
  destruct (unhexlify cert_claim_id) as [raw_cert_id|]; [|discriminate Hret].
  destruct (decode_address claim_address) as [decoded_addr|];
    [|discriminate Hret].
  eauto.
Qed.

(** C4, as the code has it.  With a certificate id that validates and
    decodes and an address that decodes, a detached call fails with
    [MissingName] when the name is empty; fails with
    [UnsupportedCurveForDetached] when the name is non-empty and the
    signer's class is not the SECP256k1 one; and returns the detached
    envelope when the name is non-empty and encodable, the signer is a
    SECP256k1 signer, and key and codec accept.  Both failures leave the
    world as it was. *)
Theorem detached_preconditions (self : signer) (claim : claim_object)
    (claim_address cert_claim_id name : pystr) (w : world)
    (raw_cert_id decoded_addr : bytes) :
  validate_claim_id cert_claim_id = true ->
  unhexlify cert_claim_id = Some raw_cert_id ->
  decode_address claim_address = Some decoded_addr ->
  let run := sign_stream_claim self claim claim_address cert_claim_id name
               true w in
  (name = [] -> run = (inl MissingName, w))
  /\ (name <> [] -> cls self <> SECP256k1Signer ->
      run = (inl (UnsupportedCurveForDetached (CURVE_NAME (cls self))), w))
  /\ (name <> [] -> cls self = SECP256k1Signer ->
      forall (encoded_name : bytes) (k : signing_key) (signature : bytes)
             (fields : gmap pystr pyobj) (loaded : proto),
        str_encode (str_lower name) = Some encoded_name ->
        private_key self = SigningKey k ->
        sign_digest_deterministic k
          (sha256 (encoded_name ++ decoded_addr ++
                   serialized_no_signature claim ++ raw_cert_id))
          hashlib_sha256 = Some signature ->
        decode_b64_fields (protobuf_dict claim) = Some fields ->
        Claim_load fields = Some loaded ->
        exists w' : world,
          run = (inr (loaded, NAMED_SECP256K1 signature raw_cert_id
                            (serialized_no_signature claim)), w')).
Proof.
  intros Hv Hx Ha run. split; [|split].
  - intros ->. unfold run, sign_stream_claim, mbind, M_bind, bind.
    rewrite Hv, Hx, Ha. reflexivity.
  - intros Hn Hc. unfold run, sign_stream_claim, mbind, M_bind, bind.
    rewrite Hv, Hx, Ha, (truthy_nonempty _ Hn),
      (CURVE_NAME_not_SECP256k1 _ Hc).
    reflexivity.
  - intros Hn Hc encoded_name k signature fields loaded He Hk Hs Hd Hl.
    unfold run.
    rewrite (run_detached self claim claim_address cert_claim_id name w
               raw_cert_id decoded_addr encoded_name Hv Hx Ha Hn Hc He).
    rewrite Hk. cbn [sign_outcome]. rewrite Hs, Hd, Hl. eauto.
Qed.

(** C3, at the failing input.  In legacy mode the key is inspected only
    after it has been used: with an object that is no [ecdsa.SigningKey]
    but offers [sign_digest_deterministic], the message is hashed, the
    digest is signed, and then the call fails with [NotASigningKey]; with
    an [ecdsa.VerifyingKey] the message is hashed and the call fails with
    [AttributeError], the inspection never being reached. *)
Theorem legacy_key_check_follows_signing (self : signer) (claim : claim_object)
    (claim_address cert_claim_id name : pystr) (w : world)
    (raw_cert_id decoded_addr : bytes) :
  validate_claim_id cert_claim_id = true ->
  unhexlify cert_claim_id = Some raw_cert_id ->
  decode_address claim_address = Some decoded_addr ->
  let h := HASHFUNC (cls self) in
  let signed := decoded_addr ++ serialized_no_signature claim ++ raw_cert_id in
  let run := sign_stream_claim self claim claim_address cert_claim_id name
               false w in
  (forall f : bytes -> hash_alg -> bytes,
     private_key self = OtherKey f ->
     run = (inl NotASigningKey,
            World (rng w)
              (log w ++ [Hashed h signed;
                         Signed (OtherKey f) (digest h signed) h])))
  /\ (forall q : verifying_key,
        private_key self = VerifyingKey q ->
        run = (inl (AttributeError (str "sign_digest_deterministic")),
               World (rng w) (log w ++ [Hashed h signed]))).
Proof.
  intros Hv Hx Ha h signed run.
  pose proof (run_legacy self claim claim_address cert_claim_id name w
                raw_cert_id decoded_addr Hv Hx Ha) as Hrun.
  cbn zeta in Hrun. fold h signed run in Hrun.
  split.
  - intros f Hk. rewrite Hrun, Hk. reflexivity.
  - intros q Hk. rewrite Hrun, Hk. reflexivity.
Qed.

(** C10.  Legacy mode needs the ["stream"] entry of the decoded field
    mapping.  A legacy call that returns has found it, and the message it
    returns is loaded from exactly three entries: the version, that stream
    and the signature descriptor.  When the entry is absent, the other
    preconditions holding, the call fails with [KeyError] after the
    message was hashed and the digest signed. *)
Theorem legacy_requires_stream (self : signer) (claim : claim_object)
    (claim_address cert_claim_id name : pystr) (w : world) :
  let run := sign_stream_claim self claim claim_address cert_claim_id name
               false w in
  (forall (p : proto) (parsed : Signature) (w' : world),
     run = (inr (p, parsed), w') ->
     exists (fields : gmap pystr pyobj) (stream : pyobj)
            (signature raw_cert_id : bytes),
       decode_b64_fields (protobuf_dict claim) = Some fields /\
       fields !! str "stream" = Some stream /\
       Claim_load
         (<[str "publisherSignature" :=
              PyDict (publisher_signature (CURVE_NAME (cls self)) signature
                        raw_cert_id)]>
          (<[str "stream" := stream]>
          (<[str "version" := V_0_0_1]> ∅))) = Some p)
  /\ (forall (raw_cert_id decoded_addr : bytes) (k : signing_key)
             (signature : bytes) (fields : gmap pystr pyobj),
        validate_claim_id cert_claim_id = true ->
        unhexlify cert_claim_id = Some raw_cert_id ->
        decode_address claim_address = Some decoded_addr ->
        let h := HASHFUNC (cls self) in
        let signed := decoded_addr ++ serialized_no_signature claim
                      ++ raw_cert_id in
        private_key self = SigningKey k ->
        sign_digest_deterministic k (digest h signed) h = Some signature ->
        decode_b64_fields (protobuf_dict claim) = Some fields ->
        fields !! str "stream" = None ->
        run = (inl (KeyError (str "stream")),
               World (rng w)
                 (log w ++ [Hashed h signed;
                            Signed (SigningKey k) (digest h signed) h]))).
Proof.
  intros run. split.
  - intros p parsed w' Hret. unfold run in Hret.
    destruct (returned_call_passed_checks _ _ _ _ _ _ _ _ _ Hret)
      as (raw_cert_id & decoded_addr & Hv & Hx & Ha).
    rewrite (run_legacy self claim claim_address cert_claim_id name w
               raw_cert_id decoded_addr Hv Hx Ha) in Hret.
    destruct (sign_outcome _ _ _) as [e | signature]; [discriminate|].
    destruct (isinstance_SigningKey _); [|discriminate].
    destruct (decode_b64_fields _) as [fields|]; [|discriminate].
    destruct (fields !! str "stream") as [stream|] eqn:Hst; [|discriminate].
    destruct (Claim_load _) as [p'|] eqn:Hl; [|discriminate].
    destruct (flagged_parse _); [|discriminate].
    injection Hret as <- _ _.
    exists fields, stream, signature, raw_cert_id. auto.
  - intros raw_cert_id decoded_addr k signature fields Hv Hx Ha h signed
      Hk Hs Hd Hst.
    unfold run.
    rewrite (run_legacy self claim claim_address cert_claim_id name w
               raw_cert_id decoded_addr Hv Hx Ha).
    fold h signed. rewrite Hk. cbn [sign_outcome isinstance_SigningKey].
    rewrite Hs, Hd, Hst. reflexivity.
Qed.

End Preconditions.

Section PreconditionsWitnesses.
Import Reference.

(** C4, as stated, fails twice on the order of the checks: an empty name
    with a certificate id that does not validate fails with
    [InvalidCertificateId], not with [MissingName]; and an empty name on a
    NIST256p signer fails with [MissingName], not with
    [UnsupportedCurveForDetached]. *)
Lemma detached_failures_depend_on_check_order :
  ~ (forall (C : Collaborators) (self : signer) (claim : claim_object)
            (claim_address cert_claim_id name : pystr) (w : world),
       name = [] ->
       fst (sign_stream_claim self claim claim_address cert_claim_id name
              true w) = inl MissingName)
  /\ ~ (forall (C : Collaborators) (self : signer) (claim : claim_object)
               (claim_address cert_claim_id name : pystr) (w : world),
          cls self = NIST256pSigner ->
          fst (sign_stream_claim self claim claim_address cert_claim_id name
                 true w)
            = inl (UnsupportedCurveForDetached (CURVE_NAME (cls self)))).
Proof.
  split.
  - intros H.
    specialize (H collaborators secp256k1_signer stream_claim address
                  (str "xyz") [] w0 eq_refl).
    vm_compute in H. discriminate H.
  - intros H.
    specialize (H collaborators nist256p_signer stream_claim address
                  cert_id [] w0 eq_refl).
    vm_compute in H. discriminate H.
Qed.

Lemma detached_preconditions_witness :
  validate_claim_id cert_id = true /\
  unhexlify cert_id = Some raw_cert_id /\
  decode_address address = Some decoded_addr /\
  sign_stream_claim secp256k1_signer stream_claim address cert_id [] true w0
    = (inl MissingName, w0) /\
  sign_stream_claim nist384p_signer stream_claim address cert_id (str "Foo")
    true w0
    = (inl (UnsupportedCurveForDetached (PyStr NIST384p)), w0) /\
  exists w' : world,
    sign_stream_claim secp256k1_signer stream_claim address cert_id
      (str "Foo") true w0
    = (inr (None,
            NAMED_SECP256K1
              (key ++ sha256 (foo_bytes ++ decoded_addr
                              ++ [Byte.x0a; Byte.x0b] ++ raw_cert_id))
              raw_cert_id [Byte.x0a; Byte.x0b]), w').
Proof.
  do 3 (split; [reflexivity|]).
  split; [|split].
  - exact (proj1 (detached_preconditions secp256k1_signer stream_claim
                    address cert_id [] w0 raw_cert_id decoded_addr
                    eq_refl eq_refl eq_refl) eq_refl).
  - exact (proj1 (proj2 (detached_preconditions nist384p_signer stream_claim
                           address cert_id (str "Foo") w0 raw_cert_id
                           decoded_addr eq_refl eq_refl eq_refl))
             ltac:(discriminate) ltac:(discriminate)).
  - exact (proj2 (proj2 (detached_preconditions secp256k1_signer stream_claim
                           address cert_id (str "Foo") w0 raw_cert_id
                           decoded_addr eq_refl eq_refl eq_refl))
             ltac:(discriminate) eq_refl foo_bytes key _
             (protobuf_dict stream_claim) None
             eq_refl eq_refl eq_refl eq_refl eq_refl).
Defined.

Lemma legacy_key_check_follows_signing_witness :
  validate_claim_id cert_id = true /\
  unhexlify cert_id = Some raw_cert_id /\
  decode_address address = Some decoded_addr /\
  private_key proxy_signer = OtherKey proxy_sign /\
  private_key verifying_signer = VerifyingKey key /\
  sign_stream_claim proxy_signer stream_claim address cert_id (str "Foo")
    false w0
    = (inl NotASigningKey,
       World 7
         [Hashed hashlib_sha256
            (decoded_addr ++ [Byte.x0a; Byte.x0b] ++ raw_cert_id);
          Signed (OtherKey proxy_sign)
            (sha256 (decoded_addr ++ [Byte.x0a; Byte.x0b] ++ raw_cert_id))
            hashlib_sha256]) /\
  sign_stream_claim verifying_signer stream_claim address cert_id (str "Foo")
    false w0
    = (inl (AttributeError (str "sign_digest_deterministic")),
       World 7
         [Hashed hashlib_sha256
            (decoded_addr ++ [Byte.x0a; Byte.x0b] ++ raw_cert_id)]).
Proof.
  do 5 (split; [reflexivity|]).
  split.
  - exact (proj1 (legacy_key_check_follows_signing proxy_signer stream_claim
                    address cert_id (str "Foo") w0 raw_cert_id decoded_addr
                    eq_refl eq_refl eq_refl) proxy_sign eq_refl).
  - exact (proj2 (legacy_key_check_follows_signing verifying_signer
                    stream_claim address cert_id (str "Foo") w0 raw_cert_id
                    decoded_addr eq_refl eq_refl eq_refl) key eq_refl).
Defined.

Lemma legacy_requires_stream_witness :
  validate_claim_id cert_id = true /\
  unhexlify cert_id = Some raw_cert_id /\
  decode_address address = Some decoded_addr /\
  private_key nist256p_signer = SigningKey key /\
  decode_b64_fields (protobuf_dict certificate_claim)
    = Some (protobuf_dict certificate_claim) /\
  protobuf_dict certificate_claim !! str "stream" = None /\
  sign_stream_claim nist256p_signer certificate_claim address cert_id
    (str "Foo") false w0
    = (inl (KeyError (str "stream")),
       World 7
         [Hashed hashlib_sha256 (decoded_addr ++ [Byte.x0c] ++ raw_cert_id);
          Signed (SigningKey key)
            (sha256 (decoded_addr ++ [Byte.x0c] ++ raw_cert_id))
            hashlib_sha256]) /\
  exists (fields : gmap pystr pyobj) (stream : pyobj),
    decode_b64_fields (protobuf_dict stream_claim) = Some fields /\
    fields !! str "stream" = Some stream.
Proof.
  do 6 (split; [reflexivity|]).
  split.
  - exact (proj2 (legacy_requires_stream nist256p_signer certificate_claim
                    address cert_id (str "Foo") w0)
             raw_cert_id decoded_addr key _ (protobuf_dict certificate_claim)
             eq_refl eq_refl eq_refl eq_refl eq_refl eq_refl eq_refl).
  - destruct (proj1 (legacy_requires_stream nist256p_signer stream_claim
                       address cert_id (str "Foo") w0) _ _ _ eq_refl)
      as (fields & stream & _ & _ & Hd & Hst & _).
    exists fields, stream. split; assumption.
Defined.

End PreconditionsWitnesses.

(** ** Raw signing, the round trip and the registry *)

Section Signing.
Context `{C : Collaborators}.

(** C8.  Every call of [sign] hashes the joined fields once, with the hash
    of the signer's class: SHA-256 for the NIST256p and SECP256k1 classes,
    SHA-384 for the NIST384p class.  That digest, and nothing else, goes to
    the key's deterministic signing method together with the same hash; the
    outcome does not depend on the entropy or on anything else in the
    world. *)
Theorem sign_hashes_with_class_hash (self : signer) (fields : list bytes)
    (w : world) :
  let h := HASHFUNC (cls self) in
  let message := concat fields in
  (cls self = NIST256pSigner \/ cls self = SECP256k1Signer ->
   h = hashlib_sha256 /\ digest h message = sha256 message)
  /\ (cls self = NIST384pSigner ->
      h = hashlib_sha384 /\ digest h message = sha384 message)
  /\ sign self fields w =
       (sign_outcome (private_key self) (digest h message) h,
        World (rng w)
          (log w ++ Hashed h message
                 :: sign_events (private_key self) (digest h message) h))
  /\ deterministic (sign self fields).
Proof.
  intros h message. repeat split.
  - unfold h. now destruct H as [-> | ->].
  - unfold h. now destruct H as [-> | ->].
  - unfold h. now rewrite H.
  - unfold h. now rewrite H.
  - apply run_sign.
  - apply (deterministic_sign self fields w1 w2).
  - apply (deterministic_sign self fields w1 w2).
Qed.

(** C7.  Legacy round trip, for a codec that meets the parser's contract:
    whenever a legacy call returns, the signer holds a signing key, and the
    envelope parsed back from the serialized claim is the legacy one whose
    signature is the signature of the digest of decoded address, claim
    bytes and raw certificate id, computed before the splice. *)
Theorem legacy_round_trip (self : signer) (claim : claim_object)
    (claim_address cert_claim_id name : pystr) (w w' : world)
    (p : proto) (parsed : Signature) :
  parser_extracts_publisherSignature ->
  sign_stream_claim self claim claim_address cert_claim_id name false w
    = (inr (p, parsed), w') ->
  exists (k : signing_key) (raw_cert_id decoded_addr signature : bytes),
    private_key self = SigningKey k /\
    unhexlify cert_claim_id = Some raw_cert_id /\
    decode_address claim_address = Some decoded_addr /\
    sign_digest_deterministic k
      (digest (HASHFUNC (cls self))
         (decoded_addr ++ serialized_no_signature claim ++ raw_cert_id))
      (HASHFUNC (cls self)) = Some signature /\
    parsed = Legacy V_0_0_1 (CURVE_NAME (cls self)) signature raw_cert_id /\
    signature_of parsed = signature.
Proof.
  intros Hcodec Hret.
  destruct (returned_call_passed_checks _ _ _ _ _ _ _ _ _ Hret)
    as (raw_cert_id & decoded_addr & Hv & Hx & Ha).
  rewrite (run_legacy self claim claim_address cert_claim_id name w
             raw_cert_id decoded_addr Hv Hx Ha) in Hret.
  destruct (private_key self) as [k | q | f] eqn:Hk;
    cbn [sign_outcome isinstance_SigningKey] in Hret; try discriminate Hret.
  destruct (sign_digest_deterministic k _ _) as [signature|] eqn:Hs;
    [|discriminate Hret].
  destruct (decode_b64_fields _) as [fields|]; [|discriminate Hret].
  destruct (fields !! str "stream") as [stream|]; [|discriminate Hret].
  destruct (Claim_load _) as [p'|] eqn:Hl; [|discriminate Hret].
  pose proof (Hcodec _ (cls self) signature raw_cert_id p'
                (legacy_fields_publisherSignature _ _) Hl) as Hparse.
  rewrite Hparse in Hret. injection Hret as _ <- _.
  exists k, raw_cert_id, decoded_addr, signature. auto 10.
Qed.

(** C9.  [get_signer] resolves each of the three curve identifiers to the
    class whose [CURVE_NAME] is that identifier, raises [UnknownCurve] on
    any other object, and in both cases leaves the world as it was. *)
Theorem get_signer_resolves (curve : pyobj) (w : world) :
  (forall signer_cls : signer_class,
     signer_cls = NIST256pSigner \/ signer_cls = NIST384pSigner
       \/ signer_cls = SECP256k1Signer ->
     get_signer (CURVE_NAME signer_cls) w = (inr signer_cls, w))
  /\ (curve <> PyStr NIST256p -> curve <> PyStr NIST384p ->
      curve <> PyStr SECP256k1 ->
      get_signer curve w = (inl (UnknownCurve curve), w)).
Proof.
  split.
  - intros signer_cls [-> | [-> | ->]]; reflexivity.
  - intros H1 H2 H3. unfold get_signer.
    now rewrite !py_eq_str_false by assumption.
Qed.

End Signing.

Section SigningWitnesses.
Import Reference.

Lemma sign_hashes_with_class_hash_witness :
  cls nist384p_signer = NIST384pSigner /\
  cls secp256k1_signer = SECP256k1Signer /\
  digest (HASHFUNC (cls nist384p_signer)) (concat [decoded_addr; raw_cert_id])
    = sha384 (concat [decoded_addr; raw_cert_id]) /\
  digest (HASHFUNC (cls secp256k1_signer)) (concat [decoded_addr; raw_cert_id])
    = sha256 (concat [decoded_addr; raw_cert_id]).
Proof.
  do 2 (split; [reflexivity|]).
  split.
  - exact (proj2 (proj1 (proj2 (sign_hashes_with_class_hash nist384p_signer
                                  [decoded_addr; raw_cert_id] w0)) eq_refl)).
  - exact (proj2 (proj1 (sign_hashes_with_class_hash secp256k1_signer
                           [decoded_addr; raw_cert_id] w0)
                    (or_intror eq_refl))).
Defined.

Lemma legacy_round_trip_witness :
  parser_extracts_publisherSignature /\
  sign_stream_claim nist256p_signer stream_claim address cert_id (str "Foo")
    false w0
    = (inr (Some (NIST256pSigner,
                  key ++ sha256 (decoded_addr ++ [Byte.x0a; Byte.x0b]
                                 ++ raw_cert_id),
                  raw_cert_id),
            Legacy V_0_0_1 (PyStr NIST256p)
              (key ++ sha256 (decoded_addr ++ [Byte.x0a; Byte.x0b]
                              ++ raw_cert_id))
              raw_cert_id),
       World 7
         [Hashed hashlib_sha256
            (decoded_addr ++ [Byte.x0a; Byte.x0b] ++ raw_cert_id);
          Signed (SigningKey key)
            (sha256 (decoded_addr ++ [Byte.x0a; Byte.x0b] ++ raw_cert_id))
            hashlib_sha256]) /\
  exists (k : signing_key) (signature : bytes),
    sign_digest_deterministic k
      (sha256 (decoded_addr ++ [Byte.x0a; Byte.x0b] ++ raw_cert_id))
      hashlib_sha256 = Some signature /\
    signature_of
      (Legacy V_0_0_1 (PyStr NIST256p)
         (key ++ sha256 (decoded_addr ++ [Byte.x0a; Byte.x0b] ++ raw_cert_id))
         raw_cert_id) = signature.
Proof.
  split; [exact reference_codec_contract|].
  split; [reflexivity|].
  destruct (legacy_round_trip nist256p_signer stream_claim address cert_id
              (str "Foo") w0 _ _ _ reference_codec_contract eq_refl)
    as (k & raw & addr & signature & Hk & Hx & Ha & Hs & _ & Hsig).
  injection Hx as <-. injection Ha as <-.
  exists k, signature. split; assumption.
Defined.

Lemma get_signer_resolves_witness :
  (NIST384pSigner = NIST256pSigner \/ NIST384pSigner = NIST384pSigner
     \/ NIST384pSigner = SECP256k1Signer) /\
  PyStr (str "ED25519") <> PyStr NIST256p /\
  PyStr (str "ED25519") <> PyStr NIST384p /\
  PyStr (str "ED25519") <> PyStr SECP256k1 /\
  get_signer (PyStr NIST384p) w0 = (inr NIST384pSigner, w0) /\
  get_signer (PyStr (str "ED25519")) w0
    = (inl (UnknownCurve (PyStr (str "ED25519"))), w0).
Proof.
  split; [right; left; reflexivity|].
  do 3 (split; [discriminate|]).
  split.
  - exact (proj1 (get_signer_resolves PyNone w0) NIST384pSigner
             (or_intror (or_introl eq_refl))).
  - exact (proj2 (get_signer_resolves (PyStr (str "ED25519")) w0)
             ltac:(discriminate) ltac:(discriminate) ltac:(discriminate)).
Defined.

(** Key generation, by contrast, reads the entropy: [generate] is not
    deterministic in the sense above. *)
Lemma generate_reads_entropy : ~ deterministic (generate SECP256k1Signer).
Proof.
  intros H.
  destruct (H (@World collaborators 1 []) (@World collaborators 2 []))
    as [Hout _].
  change (@inr exn signer (Signer SECP256k1Signer (SigningKey [Byte.x01]))
          = inr (Signer SECP256k1Signer (SigningKey [Byte.x02]))) in Hout.
  discriminate Hout.
Qed.

End SigningWitnesses.

(** * Further properties of the signer *)

(** ** What a call leaves behind *)

Section Footprint.
Context `{C : Collaborators}.

Lemma SECP256k1_class (signer_cls : signer_class) :
  py_eq_str (CURVE_NAME signer_cls) SECP256k1 = true ->
  signer_cls = SECP256k1Signer.
Proof. now destruct signer_cls. Qed.

Lemma sign_outcome_raised_after_hashing (key : key_object) (dgst : bytes)
    (h : hash_alg) (e : exn) :
  sign_outcome key dgst h = inl e -> raised_before_hashing e = false.
Proof.
  destruct key as [k | q | f]; cbn.
  - destruct (sign_digest_deterministic k dgst h); [discriminate|].
    now intros [= <-].
  - now intros [= <-].
  - discriminate.
Qed.

Lemma sign_outcome_signed (key : key_object) (dgst : bytes) (h : hash_alg)
    (s : bytes) :
  sign_outcome key dgst h = inr s ->
  sign_events key dgst h = [Signed key dgst h].
Proof. destruct key; cbn; [reflexivity | discriminate | reflexivity]. Qed.

(** Every run has one of two shapes: it fails in the world it started in,
    with an exception of the opening statements; or it hashed one message
    and handed the digest to the key, and then either returned, the key
    having signed, or failed with an exception of the later statements. *)
Lemma run_shape (self : signer) (claim : claim_object)
    (claim_address cert_claim_id name : pystr) (detached : bool) (w : world) :
  let run := sign_stream_claim self claim claim_address cert_claim_id name
               detached w in
  let h := HASHFUNC (cls self) in
  (exists e : exn, run = (inl e, w) /\ raised_before_hashing e = true)
  \/ (exists (message : bytes) (out : exn + proto * Signature),
        run = (out, after_signing w (private_key self) h message) /\
        match out with
        | inl e => raised_before_hashing e = false
        | inr _ =>
            sign_events (private_key self) (digest h message) h =
              [Signed (private_key self) (digest h message) h]
        end).
Proof.
  intros run h.
  destruct (validate_claim_id cert_claim_id) eqn:Hv.
  2:{ left. exists InvalidCertificateId. split; [|reflexivity].
      unfold run, sign_stream_claim. now rewrite run_bind, Hv. }
  destruct (unhexlify cert_claim_id) as [raw_cert_id|] eqn:Hx.
  2:{ left. exists binascii_Error. split; [|reflexivity].
      unfold run, sign_stream_claim, mbind, M_bind, bind.
      now rewrite Hv, Hx. }
  destruct (decode_address claim_address) as [decoded_addr|] eqn:Ha.
  2:{ left. exists InvalidAddress. split; [|reflexivity].
      unfold run, sign_stream_claim, mbind, M_bind, bind.
      now rewrite Hv, Hx, Ha. }
  destruct detached.
  - destruct (truthy name) eqn:Ht.
    2:{ left. exists MissingName. split; [|reflexivity].
        unfold run, sign_stream_claim, mbind, M_bind, bind.
        now rewrite Hv, Hx, Ha, Ht. }
    assert (name <> []) as Hn by (intros ->; discriminate Ht).
    destruct (py_eq_str (CURVE_NAME (cls self)) SECP256k1) eqn:Hc.
    2:{ left. exists (UnsupportedCurveForDetached (CURVE_NAME (cls self))).
        split; [|reflexivity].
        unfold run, sign_stream_claim, mbind, M_bind, bind.
        now rewrite Hv, Hx, Ha, (truthy_nonempty _ Hn), Hc. }
    apply SECP256k1_class in Hc.
    destruct (str_encode (str_lower name)) as [encoded_name|] eqn:He.
    2:{ left. exists UnicodeEncodeError. split; [|reflexivity].
        unfold run, sign_stream_claim, mbind, M_bind, bind.
        rewrite Hv, Hx, Ha, (truthy_nonempty _ Hn), He, Hc.
        cbn [assert call ret raise CURVE_NAME py_eq_str].
        now rewrite bool_decide_eq_true_2 by reflexivity. }
    right.
    exists (encoded_name ++ decoded_addr ++ serialized_no_signature claim
            ++ raw_cert_id).
    unfold run.
    rewrite (run_detached self claim claim_address cert_claim_id name w
               raw_cert_id decoded_addr encoded_name Hv Hx Ha Hn Hc He).
    unfold h. rewrite Hc. cbn [HASHFUNC digest].
    destruct (sign_outcome _ _ _) as [e | signature] eqn:Hs.
    { eexists. split; [reflexivity|].
      exact (sign_outcome_raised_after_hashing _ _ _ _ Hs). }
    pose proof (sign_outcome_signed _ _ _ _ Hs) as Hev.
    destruct (decode_b64_fields _); [|eexists; split; reflexivity].
    destruct (Claim_load _); eexists; (split; [reflexivity|]);
      [exact Hev | reflexivity].
  - right.
    exists (decoded_addr ++ serialized_no_signature claim ++ raw_cert_id).
    unfold run.
    rewrite (run_legacy self claim claim_address cert_claim_id name w
               raw_cert_id decoded_addr Hv Hx Ha).
    fold h.
    destruct (sign_outcome _ _ _) as [e | signature] eqn:Hs.
    { eexists. split; [reflexivity|].
      exact (sign_outcome_raised_after_hashing _ _ _ _ Hs). }
    pose proof (sign_outcome_signed _ _ _ _ Hs) as Hev.
    destruct (isinstance_SigningKey _); [|eexists; split; reflexivity].
    destruct (decode_b64_fields _) as [fields|];
      [|eexists; split; reflexivity].
    destruct (fields !! str "stream"); [|eexists; split; reflexivity].
    destruct (Claim_load _); [|eexists; split; reflexivity].
    destruct (flagged_parse _); eexists; (split; [reflexivity|]);
      [exact Hev | reflexivity].
Qed.

(** X1.  One call does at most one hash and one signature: the entropy is
    left alone and the log grows by nothing, by one hash, or by one hash
    followed by one signature of its digest under the class hash; and a
    call that returns has made exactly that hash and that signature. *)
Theorem call_hashes_and_signs_at_most_once (self : signer)
    (claim : claim_object) (claim_address cert_claim_id name : pystr)
    (detached : bool) (w : world) :
  let run := sign_stream_claim self claim claim_address cert_claim_id name
               detached w in
  let h := HASHFUNC (cls self) in
  rng (snd run) = rng w
  /\ (log (snd run) = log w
      \/ (exists message : bytes, log (snd run) = log w ++ [Hashed h message])
      \/ (exists message : bytes,
            log (snd run) =
              log w ++ [Hashed h message;
                        Signed (private_key self) (digest h message) h]))
  /\ (forall r : proto * Signature,
        fst run = inr r ->
        exists message : bytes,
          log (snd run) =
            log w ++ [Hashed h message;
                      Signed (private_key self) (digest h message) h]).
Proof.
  intros run h.
  destruct (run_shape self claim claim_address cert_claim_id name detached w)
    as [(e & Hrun & _) | (message & out & Hrun & Hout)];
    fold run in Hrun; rewrite Hrun; cbn [fst snd].
  - split; [reflexivity|]. split; [now left|]. discriminate.
  - subst h. unfold after_signing. cbn [rng log]. split; [reflexivity|].
    split.
    + destruct (private_key self) as [k | q | f]; cbn [sign_events]; eauto.
    + intros r Hr. subst out. rewrite Hout. eauto.
Qed.

(** X2.  Which failures precede the cryptographic work.  A call that fails
    with an exception of the opening statements (the certificate id checks,
    the address, the two assertions, the encoding of the name) ends in the
    world it started in.  A call that fails with any other exception
    (raised by the key, the key guard or the codec) has hashed a message
    and handed the digest to the key. *)
Theorem failures_split_at_the_hash (self : signer) (claim : claim_object)
    (claim_address cert_claim_id name : pystr) (detached : bool)
    (w w' : world) (e : exn) :
  sign_stream_claim self claim claim_address cert_claim_id name detached w
    = (inl e, w') ->
  if raised_before_hashing e then w' = w
  else exists message : bytes,
         w' = after_signing w (private_key self) (HASHFUNC (cls self)) message.
Proof.
  intros Hfail.
  destruct (run_shape self claim claim_address cert_claim_id name detached w)
    as [(e0 & Hrun & He0) | (message & out & Hrun & Hout)];
    rewrite Hrun in Hfail; injection Hfail as -> <-.
  - now rewrite He0.
  - rewrite Hout. eauto.
Qed.

(** X3.  An address that does not decode makes the call fail with
    [InvalidAddress] in the world it started in, in both modes and whatever
    the name, the class and the key, once the certificate id has passed. *)
Theorem invalid_address_rejected (self : signer) (claim : claim_object)
    (claim_address cert_claim_id name : pystr) (detached : bool) (w : world)
    (raw_cert_id : bytes) :
  validate_claim_id cert_claim_id = true ->
  unhexlify cert_claim_id = Some raw_cert_id ->
  decode_address claim_address = None ->
  sign_stream_claim self claim claim_address cert_claim_id name detached w
    = (inl InvalidAddress, w).
Proof.
  intros Hv Hx Ha. unfold sign_stream_claim, mbind, M_bind, bind.
  now rewrite Hv, Hx, Ha.
Qed.

(** X4.  A detached call whose name, once lower-cased, has no UTF-8
    encoding fails with [UnicodeEncodeError], an exception outside the
    assertions, before anything is hashed. *)
Theorem unencodable_name_rejected (self : signer) (claim : claim_object)
    (claim_address cert_claim_id name : pystr) (w : world)
    (raw_cert_id decoded_addr : bytes) :
  validate_claim_id cert_claim_id = true ->
  unhexlify cert_claim_id = Some raw_cert_id ->
  decode_address claim_address = Some decoded_addr ->
  name <> [] ->
  cls self = SECP256k1Signer ->
  str_encode (str_lower name) = None ->
  sign_stream_claim self claim claim_address cert_claim_id name true w
    = (inl UnicodeEncodeError, w).
Proof.
  intros Hv Hx Ha Hn Hc He. unfold sign_stream_claim, mbind, M_bind, bind.
  rewrite Hv, Hx, Ha, (truthy_nonempty _ Hn), He, Hc.
  cbn [assert call ret raise CURVE_NAME py_eq_str].
  now rewrite bool_decide_eq_true_2 by reflexivity.
Qed.

End Footprint.

Section FootprintWitnesses.
Import Reference ReferenceInputs.

Lemma failures_split_at_the_hash_witness :
  sign_stream_claim nist256p_signer certificate_claim address cert_id
    (str "Foo") false w0
    = (inl (KeyError (str "stream")),
       after_signing w0 (SigningKey key) hashlib_sha256
         (decoded_addr ++ [Byte.x0c] ++ raw_cert_id)) /\
  exists message : bytes,
    after_signing w0 (SigningKey key) hashlib_sha256
      (decoded_addr ++ [Byte.x0c] ++ raw_cert_id)
    = after_signing w0 (SigningKey key) hashlib_sha256 message.
Proof.
  split; [reflexivity|].
  exact (failures_split_at_the_hash nist256p_signer certificate_claim address
           cert_id (str "Foo") false w0 _ _ eq_refl).
Defined.

Lemma invalid_address_rejected_witness :
  validate_claim_id cert_id = true /\
  unhexlify cert_id = Some raw_cert_id /\
  decode_address [] = None /\
  sign_stream_claim secp256k1_signer stream_claim [] cert_id [] true w0
    = (inl InvalidAddress, w0).
Proof.
  do 3 (split; [reflexivity|]).
  exact (invalid_address_rejected secp256k1_signer stream_claim [] cert_id []
           true w0 raw_cert_id eq_refl eq_refl eq_refl).
Defined.

Lemma unencodable_name_rejected_witness :
  validate_claim_id cert_id = true /\
  unhexlify cert_id = Some raw_cert_id /\
  decode_address address = Some decoded_addr /\
  surrogate_name <> [] /\
  cls secp256k1_signer = SECP256k1Signer /\
  str_encode (str_lower surrogate_name) = None /\
  sign_stream_claim secp256k1_signer stream_claim address cert_id
    surrogate_name true w0
    = (inl UnicodeEncodeError, w0).
Proof.
  do 3 (split; [reflexivity|]).
  split; [discriminate|].
  do 2 (split; [reflexivity|]).
  exact (unencodable_name_rejected secp256k1_signer stream_claim address
           cert_id surrogate_name w0 raw_cert_id decoded_addr
           eq_refl eq_refl eq_refl ltac:(discriminate) eq_refl eq_refl).
Defined.

End FootprintWitnesses.

(** ** What the signature covers *)

Section Coverage.
Context `{C : Collaborators}.

(** X5.  [sign] joins its fields without separators, so the signature
    covers the joined bytes only: two lists of fields with the same joined
    bytes get the same outcome, and bytes may move across a field boundary
    without changing it. *)
Theorem sign_ignores_field_boundaries (self : signer)
    (fields1 fields2 : list bytes) (w : world) :
  concat fields1 = concat fields2 ->
  sign self fields1 w = sign self fields2 w
  /\ (forall (head moved tail : bytes) (rest : list bytes),
        sign self ((head ++ moved) :: tail :: rest) w =
        sign self (head :: (moved ++ tail) :: rest) w).
Proof.
  intros Hjoin. split.
  - rewrite !run_sign. cbn zeta. now rewrite Hjoin.
  - intros head moved tail rest. rewrite !run_sign. cbn zeta.
    cbn [concat]. now rewrite <- !app_assoc.
Qed.

(** *** Letter case of the certificate id and of the name *)

Lemma hex_digit_ascii_lower (c : N) : hex_digit (ascii_lower c) = hex_digit c.
Proof.
  unfold ascii_lower.
  destruct ((65 <=? c) && (c <=? 90)) eqn:Hupper; [|reflexivity].
  apply andb_true_iff in Hupper as [H65 H90].
  apply N.leb_le in H65. apply N.leb_le in H90.
  unfold hex_digit.
  replace (48 <=? c + 32) with true by (symmetry; apply N.leb_le; lia).
  replace (c + 32 <=? 57) with false by (symmetry; apply N.leb_gt; lia).
  replace (97 <=? c + 32) with true by (symmetry; apply N.leb_le; lia).
  replace (48 <=? c) with true by (symmetry; apply N.leb_le; lia).
  replace (c <=? 57) with false by (symmetry; apply N.leb_gt; lia).
  replace (97 <=? c) with false by (symmetry; apply N.leb_gt; lia).
  replace (65 <=? c) with true by (symmetry; apply N.leb_le; lia).
  cbn [andb].
  destruct (c <=? 70) eqn:H70.
  - apply N.leb_le in H70.
    replace (c + 32 <=? 102) with true by (symmetry; apply N.leb_le; lia).
    f_equal. lia.
  - apply N.leb_gt in H70.
    replace (c + 32 <=? 102) with false by (symmetry; apply N.leb_gt; lia).
    replace (c + 32 <=? 70) with false by (symmetry; apply N.leb_gt; lia).
    now rewrite andb_false_r.
Qed.

Lemma unhexlify_ascii_lower_bounded (n : nat) (s : pystr) :
  (length s <= n)%nat -> unhexlify (map ascii_lower s) = unhexlify s.
Proof.
  revert s. induction n as [|n IH]; intros s Hlen.
  - destruct s; [reflexivity | cbn in Hlen; lia].
  - destruct s as [|hi [|lo s']]; try reflexivity.
    cbn [map unhexlify]. rewrite !hex_digit_ascii_lower.
    rewrite IH by (cbn in Hlen; lia). reflexivity.
Qed.

Lemma unhexlify_ascii_lower (s : pystr) :
  unhexlify (map ascii_lower s) = unhexlify s.
Proof. now apply (unhexlify_ascii_lower_bounded (length s)). Qed.

(** X7.  The certificate id is case-insensitive: two ids that differ only
    in the case of their ASCII letters, and that the validator treats
    alike, give the same outcome, hence the same signed bytes, the same
    signature and the same certificate id in the envelope. *)
Theorem certificate_id_case_insensitive (self : signer) (claim : claim_object)
    (claim_address cert_id1 cert_id2 name : pystr) (detached : bool)
    (w : world) :
  map ascii_lower cert_id1 = map ascii_lower cert_id2 ->
  validate_claim_id cert_id1 = validate_claim_id cert_id2 ->
  sign_stream_claim self claim claim_address cert_id1 name detached w =
  sign_stream_claim self claim claim_address cert_id2 name detached w.
Proof.
  intros Hcase Hv.
  assert (unhexlify cert_id1 = unhexlify cert_id2) as Hx.
  { rewrite <- (unhexlify_ascii_lower cert_id1),
      <- (unhexlify_ascii_lower cert_id2). now rewrite Hcase. }
  unfold sign_stream_claim. now rewrite Hv, Hx.
Qed.

Lemma ascii_lower_idempotent (c : N) :
  ascii_lower (ascii_lower c) = ascii_lower c.
Proof.
  unfold ascii_lower.
  destruct ((65 <=? c) && (c <=? 90)) eqn:E; [|now rewrite E].
  apply andb_true_iff in E as [E1 E2].
  apply N.leb_le in E1. apply N.leb_le in E2.
  replace (c + 32 <=? 90) with false by (symmetry; apply N.leb_gt; lia).
  now rewrite andb_false_r.
Qed.

Lemma is_ascii_map_ascii_lower (s : pystr) :
  is_ascii s = true -> is_ascii (map ascii_lower s) = true.
Proof.
  unfold is_ascii. induction s as [|c s IH]; [reflexivity|].
  cbn [forallb map]. intros H. apply andb_true_iff in H as [Hc Hs].
  rewrite (IH Hs), andb_true_r.
  apply N.ltb_lt in Hc. apply N.ltb_lt. unfold ascii_lower.
  destruct ((65 <=? c) && (c <=? 90)) eqn:E; [|exact Hc].
  apply andb_true_iff in E as [_ E2]. apply N.leb_le in E2. lia.
Qed.

Lemma truthy_map (f : N -> N) (s : pystr) : truthy (map f s) = truthy s.
Proof. now destruct s. Qed.

(** X8.  An ASCII name is case-insensitive in detached mode: two ASCII
    names that agree once lower-cased give the same outcome, and so does a
    name and its own lower-cased form. *)
Theorem detached_name_case_insensitive (self : signer) (claim : claim_object)
    (claim_address cert_claim_id name1 name2 : pystr) (w : world) :
  is_ascii name1 = true ->
  is_ascii name2 = true ->
  map ascii_lower name1 = map ascii_lower name2 ->
  let run := fun n =>
    sign_stream_claim self claim claim_address cert_claim_id n true w in
  run name1 = run name2 /\ run (str_lower name1) = run name1.
Proof.
  intros H1 H2 Hcase run.
  assert (str_lower name1 = map ascii_lower name1) as Hl1
    by (unfold str_lower; now rewrite H1).
  assert (str_lower name2 = map ascii_lower name2) as Hl2
    by (unfold str_lower; now rewrite H2).
  split; unfold run; apply detached_name_lower.
  - now rewrite <- (truthy_map ascii_lower name1), Hcase, truthy_map.
  - now rewrite Hl1, Hl2.
  - rewrite Hl1. apply truthy_map.
  - rewrite Hl1. unfold str_lower at 1.
    rewrite (is_ascii_map_ascii_lower _ H1), map_map.
    apply map_ext. intros c. apply ascii_lower_idempotent.
Qed.

End Coverage.

Section CoverageWitnesses.
Import Reference ReferenceInputs.

Lemma sign_ignores_field_boundaries_witness :
  concat [foo_bytes; decoded_addr] = concat [foo_bytes ++ decoded_addr] /\
  sign secp256k1_signer [foo_bytes; decoded_addr] w0 =
  sign secp256k1_signer [foo_bytes ++ decoded_addr] w0.
Proof.
  split; [reflexivity|].
  exact (proj1 (sign_ignores_field_boundaries secp256k1_signer
                  [foo_bytes; decoded_addr] [foo_bytes ++ decoded_addr] w0
                  eq_refl)).
Defined.

Lemma certificate_id_case_insensitive_witness :
  map ascii_lower cert_id_upper = map ascii_lower cert_id /\
  validate_claim_id cert_id_upper = validate_claim_id cert_id /\
  sign_stream_claim nist256p_signer stream_claim address cert_id_upper
    (str "Foo") false w0 =
  sign_stream_claim nist256p_signer stream_claim address cert_id
    (str "Foo") false w0.
Proof.
  do 2 (split; [reflexivity|]).
  exact (certificate_id_case_insensitive nist256p_signer stream_claim address
           cert_id_upper cert_id (str "Foo") false w0 eq_refl eq_refl).
Defined.

Lemma detached_name_case_insensitive_witness :
  is_ascii (str "MyChannel") = true /\
  is_ascii (str "mYcHANNEL") = true /\
  map ascii_lower (str "MyChannel") = map ascii_lower (str "mYcHANNEL") /\
  sign_stream_claim secp256k1_signer stream_claim address cert_id
    (str "MyChannel") true w0 =
  sign_stream_claim secp256k1_signer stream_claim address cert_id
    (str "mYcHANNEL") true w0.
Proof.
  do 3 (split; [reflexivity|]).
  exact (proj1 (detached_name_case_insensitive secp256k1_signer stream_claim
                  address cert_id (str "MyChannel") (str "mYcHANNEL") w0
                  eq_refl eq_refl eq_refl)).
Defined.

Lemma call_hashes_and_signs_at_most_once_witness :
  exists message : bytes,
    log (snd (sign_stream_claim nist256p_signer stream_claim address cert_id
                (str "Foo") false w0)) =
      log w0 ++ [Hashed hashlib_sha256 message;
                 Signed (SigningKey key) (sha256 message) hashlib_sha256].
Proof.
  exact (proj2 (proj2 (call_hashes_and_signs_at_most_once nist256p_signer
                         stream_claim address cert_id (str "Foo") false w0))
           _ eq_refl).
Defined.

End CoverageWitnesses.

(** ** Returns of the detached mode and the key guard *)

Section DetachedReturns.
Context `{C : Collaborators}.

(** X9.  A detached call returns only when every precondition held: the
    name is non-empty, the signer is a SECP256k1 signer, and the envelope
    is the detached one carrying the hex-decoded certificate id and the
    claim's signature-excluded bytes.  The claim it returns is loaded from
    the decoded fields of the claim it was given: it depends on no other
    input, so signing leaves the claim as it was. *)
Theorem detached_return_inversion (self : signer) (claim : claim_object)
    (claim_address cert_claim_id name : pystr) (w w' : world)
    (p : proto) (envelope : Signature) :
  sign_stream_claim self claim claim_address cert_claim_id name true w
    = (inr (p, envelope), w') ->
  name <> [] /\
  cls self = SECP256k1Signer /\
  exists (fields : gmap pystr pyobj)
         (signature raw_cert_id decoded_addr encoded_name : bytes),
    unhexlify cert_claim_id = Some raw_cert_id /\
    decode_address claim_address = Some decoded_addr /\
    str_encode (str_lower name) = Some encoded_name /\
    decode_b64_fields (protobuf_dict claim) = Some fields /\
    Claim_load fields = Some p /\
    sign_outcome (private_key self)
      (sha256 (encoded_name ++ decoded_addr ++ serialized_no_signature claim
               ++ raw_cert_id))
      hashlib_sha256 = inr signature /\
    envelope = NAMED_SECP256K1 signature raw_cert_id
                 (serialized_no_signature claim).
Proof.
  intros Hret.
  destruct (returned_call_passed_checks _ _ _ _ _ _ _ _ _ Hret)
    as (raw_cert_id & decoded_addr & Hv & Hx & Ha).
  destruct (truthy name) eqn:Ht.
  2:{ unfold sign_stream_claim, mbind, M_bind, bind in Hret.
      rewrite Hv, Hx, Ha, Ht in Hret. discriminate Hret. }
  assert (name <> []) as Hn by (intros ->; discriminate Ht).
  destruct (py_eq_str (CURVE_NAME (cls self)) SECP256k1) eqn:Hc.
  2:{ unfold sign_stream_claim, mbind, M_bind, bind in Hret.
      rewrite Hv, Hx, Ha, Ht, Hc in Hret. discriminate Hret. }
  apply SECP256k1_class in Hc.
  destruct (str_encode (str_lower name)) as [encoded_name|] eqn:He.
  2:{ unfold sign_stream_claim, mbind, M_bind, bind in Hret.
      rewrite Hv, Hx, Ha, Ht, He, Hc in Hret.
      cbn [assert call ret raise CURVE_NAME py_eq_str] in Hret.
      rewrite bool_decide_eq_true_2 in Hret by reflexivity.
      discriminate Hret. }
  rewrite (run_detached self claim claim_address cert_claim_id name w
             raw_cert_id decoded_addr encoded_name Hv Hx Ha Hn Hc He)
    in Hret.
  destruct (sign_outcome _ _ _) as [e | signature] eqn:Hs;
    [discriminate Hret|].
  destruct (decode_b64_fields _) as [fields|] eqn:Hd; [|discriminate Hret].
  destruct (Claim_load fields) as [p'|] eqn:Hl; [|discriminate Hret].
  injection Hret as <- <- _.
  split; [exact Hn|]. split; [exact Hc|].
  exists fields, signature, raw_cert_id, decoded_addr, encoded_name.
  auto 10.
Qed.

Lemma sign_outcome_not_guard (key : key_object) (dgst : bytes)
    (h : hash_alg) (e : exn) :
  sign_outcome key dgst h = inl e -> e <> NotASigningKey.
Proof.
  destruct key as [k | q | f]; cbn.
  - destruct (sign_digest_deterministic k dgst h); [discriminate|].
    intros [= <-]. discriminate.
  - intros [= <-]. discriminate.
  - discriminate.
Qed.

(** The failures of a detached call: one of the opening statements, one
    of the codec, or what the key raised. *)
Lemma detached_failure_kinds (self : signer) (claim : claim_object)
    (claim_address cert_claim_id name : pystr) (w w' : world) (e : exn) :
  sign_stream_claim self claim claim_address cert_claim_id name true w
    = (inl e, w') ->
  In e [InvalidCertificateId; binascii_Error; InvalidAddress; MissingName;
        UnsupportedCurveForDetached (CURVE_NAME (cls self));
        UnicodeEncodeError; DecodeError]
  \/ (exists dgst : bytes,
        sign_outcome (private_key self) dgst hashlib_sha256 = inl e).
Proof.
  intros Hfail.
  destruct (validate_claim_id cert_claim_id) eqn:Hv.
  2:{ unfold sign_stream_claim, mbind, M_bind, bind in Hfail.
      rewrite Hv in Hfail. injection Hfail as <- _. left. cbn. tauto. }
  destruct (unhexlify cert_claim_id) as [raw_cert_id|] eqn:Hx.
  2:{ unfold sign_stream_claim, mbind, M_bind, bind in Hfail.
      rewrite Hv, Hx in Hfail. injection Hfail as <- _. left. cbn. tauto. }
  destruct (decode_address claim_address) as [decoded_addr|] eqn:Ha.
  2:{ unfold sign_stream_claim, mbind, M_bind, bind in Hfail.
      rewrite Hv, Hx, Ha in Hfail. injection Hfail as <- _. left. cbn. tauto. }
  destruct (truthy name) eqn:Ht.
  2:{ unfold sign_stream_claim, mbind, M_bind, bind in Hfail.
      rewrite Hv, Hx, Ha, Ht in Hfail. injection Hfail as <- _. left. cbn. tauto. }
  assert (name <> []) as Hn by (intros ->; discriminate Ht).
  destruct (py_eq_str (CURVE_NAME (cls self)) SECP256k1) eqn:Hc.
  2:{ unfold sign_stream_claim, mbind, M_bind, bind in Hfail.
      rewrite Hv, Hx, Ha, Ht, Hc in Hfail. injection Hfail as <- _.
      left. cbn. tauto. }
  apply SECP256k1_class in Hc.
  destruct (str_encode (str_lower name)) as [encoded_name|] eqn:He.
  2:{ unfold sign_stream_claim, mbind, M_bind, bind in Hfail.
      rewrite Hv, Hx, Ha, Ht, He, Hc in Hfail.
      cbn [assert call ret raise CURVE_NAME py_eq_str] in Hfail.
      rewrite bool_decide_eq_true_2 in Hfail by reflexivity.
      injection Hfail as <- _. left. cbn. tauto. }
  rewrite (run_detached self claim claim_address cert_claim_id name w
             raw_cert_id decoded_addr encoded_name Hv Hx Ha Hn Hc He)
    in Hfail.
  destruct (sign_outcome _ _ _) as [e0 | signature] eqn:Hs.
  { injection Hfail as <- _. right. eauto. }
  destruct (decode_b64_fields _) as [fields|];
    [|injection Hfail as <- _; left; cbn; tauto].
  destruct (Claim_load fields);
    [discriminate Hfail | injection Hfail as <- _; left; cbn; tauto].
Qed.

(** X10.  The key guard belongs to the legacy mode only.  A detached call
    never fails with [NotASigningKey]; with a key object that is no
    [ecdsa.SigningKey] but can sign, it returns the envelope carrying what
    that object signed, where the legacy call on the same inputs fails with
    [NotASigningKey]. *)
Theorem detached_mode_has_no_key_guard (self : signer) (claim : claim_object)
    (claim_address cert_claim_id name : pystr) (w : world) :
  (forall (e : exn) (w' : world),
     sign_stream_claim self claim claim_address cert_claim_id name true w
       = (inl e, w') ->
     e <> NotASigningKey)
  /\ (forall (f : bytes -> hash_alg -> bytes)
             (raw_cert_id decoded_addr encoded_name : bytes)
             (fields : gmap pystr pyobj) (loaded : proto),
        private_key self = OtherKey f ->
        validate_claim_id cert_claim_id = true ->
        unhexlify cert_claim_id = Some raw_cert_id ->
        decode_address claim_address = Some decoded_addr ->
        name <> [] ->
        cls self = SECP256k1Signer ->
        str_encode (str_lower name) = Some encoded_name ->
        decode_b64_fields (protobuf_dict claim) = Some fields ->
        Claim_load fields = Some loaded ->
        let signed := encoded_name ++ decoded_addr ++
                      serialized_no_signature claim ++ raw_cert_id in
        fst (sign_stream_claim self claim claim_address cert_claim_id name
               true w) =
          inr (loaded,
               NAMED_SECP256K1 (f (sha256 signed) hashlib_sha256) raw_cert_id
                 (serialized_no_signature claim))
        /\ fst (sign_stream_claim self claim claim_address cert_claim_id name
                  false w) = inl NotASigningKey).
Proof.
  split.
  - intros e w' Hfail.
    destruct (detached_failure_kinds _ _ _ _ _ _ _ _ Hfail)
      as [Hin | (dgst & Hs)].
    + cbn in Hin. intuition (subst e; discriminate).
    + exact (sign_outcome_not_guard _ _ _ _ Hs).
  - intros f raw_cert_id decoded_addr encoded_name fields loaded
      Hk Hv Hx Ha Hn Hc He Hd Hl signed.
    split.
    + rewrite (run_detached self claim claim_address cert_claim_id name w
                 raw_cert_id decoded_addr encoded_name Hv Hx Ha Hn Hc He).
      rewrite Hk. cbn [sign_outcome]. now rewrite Hd, Hl.
    + rewrite (run_legacy self claim claim_address cert_claim_id name w
                 raw_cert_id decoded_addr Hv Hx Ha).
      now rewrite Hk.
Qed.

End DetachedReturns.

Section DetachedReturnsWitnesses.
Import Reference ReferenceInputs.

Lemma detached_return_inversion_witness :
  sign_stream_claim secp256k1_signer stream_claim address cert_id
    (str "Foo") true w0
    = (inr (None,
            NAMED_SECP256K1
              (key ++ sha256 (foo_bytes ++ decoded_addr
                              ++ [Byte.x0a; Byte.x0b] ++ raw_cert_id))
              raw_cert_id [Byte.x0a; Byte.x0b]),
       after_signing w0 (SigningKey key) hashlib_sha256
         (foo_bytes ++ decoded_addr ++ [Byte.x0a; Byte.x0b] ++ raw_cert_id)) /\
  str "Foo" <> [] /\
  cls secp256k1_signer = SECP256k1Signer.
Proof.
  split; [reflexivity|].
  destruct (detached_return_inversion secp256k1_signer stream_claim address
              cert_id (str "Foo") w0 _ _ _ eq_refl) as (Hn & Hc & _).
  split; [exact Hn | exact Hc].
Defined.

(** A SECP256k1 signer around an object of another class. *)
Lemma detached_mode_has_no_key_guard_witness :
  private_key (Signer SECP256k1Signer (OtherKey proxy_sign))
    = OtherKey proxy_sign /\
  validate_claim_id cert_id = true /\
  unhexlify cert_id = Some raw_cert_id /\
  decode_address address = Some decoded_addr /\
  str "Foo" <> [] /\
  str_encode (str_lower (str "Foo")) = Some foo_bytes /\
  fst (sign_stream_claim (Signer SECP256k1Signer (OtherKey proxy_sign))
         stream_claim address cert_id (str "Foo") true w0) =
    inr (None,
         NAMED_SECP256K1
           (proxy_sign (sha256 (foo_bytes ++ decoded_addr
                                ++ [Byte.x0a; Byte.x0b] ++ raw_cert_id))
              hashlib_sha256)
           raw_cert_id [Byte.x0a; Byte.x0b]) /\
  fst (sign_stream_claim (Signer SECP256k1Signer (OtherKey proxy_sign))
         stream_claim address cert_id (str "Foo") false w0)
    = inl NotASigningKey.
Proof.
  do 4 (split; [reflexivity|]).
  split; [discriminate|].
  split; [reflexivity|].
  exact (proj2 (detached_mode_has_no_key_guard
                  (Signer SECP256k1Signer (OtherKey proxy_sign))
                  stream_claim address cert_id (str "Foo") w0)
           proxy_sign raw_cert_id decoded_addr foo_bytes
           (protobuf_dict stream_claim) None
           eq_refl eq_refl eq_refl eq_refl ltac:(discriminate) eq_refl
           eq_refl eq_refl eq_refl).
Defined.

End DetachedReturnsWitnesses.

(** ** The failures of a genuine key, and signers made by the class methods *)

Section Constructed.
Context `{L : KeyLoader}.

(** The failures of a legacy call: one of the three opening checks, the
    key guard, one of the codec, or what the key raised. *)
Lemma legacy_failure_kinds (self : signer) (claim : claim_object)
    (claim_address cert_claim_id name : pystr) (w w' : world) (e : exn) :
  sign_stream_claim self claim claim_address cert_claim_id name false w
    = (inl e, w') ->
  In e [InvalidCertificateId; binascii_Error; InvalidAddress;
        DecodeError; KeyError (str "stream")]
  \/ (isinstance_SigningKey (private_key self) = false /\ e = NotASigningKey)
  \/ (exists dgst : bytes,
        sign_outcome (private_key self) dgst (HASHFUNC (cls self)) = inl e).
Proof.
  intros Hfail.
  destruct (validate_claim_id cert_claim_id) eqn:Hv.
  2:{ unfold sign_stream_claim, mbind, M_bind, bind in Hfail.
      rewrite Hv in Hfail. injection Hfail as <- _. left. cbn [In]. tauto. }
  destruct (unhexlify cert_claim_id) as [raw_cert_id|] eqn:Hx.
  2:{ unfold sign_stream_claim, mbind, M_bind, bind in Hfail.
      rewrite Hv, Hx in Hfail. injection Hfail as <- _. left. cbn [In]. tauto. }
  destruct (decode_address claim_address) as [decoded_addr|] eqn:Ha.
  2:{ unfold sign_stream_claim, mbind, M_bind, bind in Hfail.
      rewrite Hv, Hx, Ha in Hfail. injection Hfail as <- _.
      left. cbn [In]. tauto. }
  rewrite (run_legacy self claim claim_address cert_claim_id name w
             raw_cert_id decoded_addr Hv Hx Ha) in Hfail.
  destruct (sign_outcome _ _ _) as [e0 | signature] eqn:Hs.
  { injection Hfail as <- _. right. right. eauto. }
  destruct (isinstance_SigningKey _);
    [|injection Hfail as <- _; right; left; split; reflexivity].
  destruct (decode_b64_fields _) as [fields|];
    [|injection Hfail as <- _; left; cbn [In]; tauto].
  destruct (fields !! str "stream");
    [|injection Hfail as <- _; left; cbn [In]; tauto].
  destruct (Claim_load _); [|injection Hfail as <- _; left; cbn [In]; tauto].
  destruct (flagged_parse _);
    [discriminate Hfail | injection Hfail as <- _; left; cbn [In]; tauto].
Qed.

Lemma sign_outcome_SigningKey_failure (k : signing_key) (dgst : bytes)
    (h : hash_alg) (e : exn) :
  sign_outcome (SigningKey k) dgst h = inl e -> e = BadDigestError.
Proof.
  cbn. destruct (sign_digest_deterministic k dgst h); [discriminate|].
  now intros [= <-].
Qed.

(** X11.  The failures of a signer that holds a genuine signing key.  A
    legacy call fails only with [InvalidCertificateId], [binascii.Error],
    [InvalidAddress], [BadDigestError], an error of the codec, or
    [KeyError] for the missing stream: never with an assertion, so neither
    the name nor the curve is looked at, and never at the key guard.  A
    detached call fails only with the first three, [MissingName],
    [UnsupportedCurveForDetached], [UnicodeEncodeError], [BadDigestError]
    or an error of the codec. *)
Theorem failures_of_a_signing_key (self : signer) (claim : claim_object)
    (claim_address cert_claim_id name : pystr) (detached : bool)
    (w w' : world) (k : signing_key) (e : exn) :
  private_key self = SigningKey k ->
  sign_stream_claim self claim claim_address cert_claim_id name detached w
    = (inl e, w') ->
  if detached then
    In e [InvalidCertificateId; binascii_Error; InvalidAddress; MissingName;
          UnsupportedCurveForDetached (CURVE_NAME (cls self));
          UnicodeEncodeError; BadDigestError; DecodeError]
  else
    In e [InvalidCertificateId; binascii_Error; InvalidAddress;
          BadDigestError; DecodeError; KeyError (str "stream")].
Proof.
  intros Hk Hfail. destruct detached.
  - destruct (detached_failure_kinds _ _ _ _ _ _ _ _ Hfail)
      as [Hin | (dgst & Hs)].
    + cbn [In] in Hin |- *. intuition auto.
    + rewrite Hk in Hs. apply sign_outcome_SigningKey_failure in Hs.
      subst e. cbn [In]. intuition auto.
  - destruct (legacy_failure_kinds _ _ _ _ _ _ _ _ Hfail)
      as [Hin | [[Hguard _] | (dgst & Hs)]].
    + cbn [In] in Hin |- *. intuition auto.
    + rewrite Hk in Hguard. discriminate Hguard.
    + rewrite Hk in Hs. apply sign_outcome_SigningKey_failure in Hs.
      subst e. cbn [In]. intuition auto.
Qed.

Lemma py_eq_str_true (o : pyobj) (s : pystr) :
  py_eq_str o s = true -> o = PyStr s.
Proof.
  destruct o; try discriminate. cbn. intros H.
  apply bool_decide_eq_true_1 in H. now subst.
Qed.

(** X12.  [get_signer] never hands out the base class.  A class it returns
    is bound to the very identifier that was asked for, it has a curve, and
    its [generate] returns a signer of that class that holds a genuine
    signing key, having hashed and signed nothing. *)
Theorem get_signer_class_generates (curve : pyobj) (w w1 : world)
    (signer_cls : signer_class) :
  get_signer curve w = (inr signer_cls, w1) ->
  w1 = w /\
  curve = CURVE_NAME signer_cls /\
  signer_cls <> NIST_ECDSASigner /\
  exists (k : signing_key) (w2 : world),
    generate signer_cls w1 = (inr (Signer signer_cls (SigningKey k)), w2) /\
    log w2 = log w.
Proof.
  unfold get_signer. intros Hget.
  destruct (py_eq_str curve NIST256p) eqn:E1;
    [|destruct (py_eq_str curve NIST384p) eqn:E2;
      [|destruct (py_eq_str curve SECP256k1) eqn:E3]];
    try discriminate Hget; injection Hget as <- <-;
    (split; [reflexivity|]);
    (split; [now apply py_eq_str_true|]);
    (split; [discriminate|]);
    unfold generate; cbn [CURVE];
    destruct (SigningKey_generate _ _ (rng w)) as [k r];
    exists k; eexists; split; reflexivity.
Qed.

(** X13.  A signer made by [generate] or by [load_pem] is of the class the
    method was called on and holds a genuine signing key, and making it
    hashes and signs nothing; [load_pem] leaves the whole world, the
    entropy included, as it was.
    A legacy call of such a signer therefore never fails at the key guard
    nor for a missing signing method. *)
Theorem constructed_signer_passes_key_guard (signer_cls : signer_class)
    (pem_string : pystr) (w w1 : world) (self : signer) :
  generate signer_cls w = (inr self, w1)
    \/ load_pem signer_cls pem_string w = (inr self, w1) ->
  cls self = signer_cls /\
  (exists k : signing_key, private_key self = SigningKey k) /\
  log w1 = log w /\
  (load_pem signer_cls pem_string w = (inr self, w1) -> w1 = w) /\
  (forall (claim : claim_object) (claim_address cert_claim_id name : pystr)
          (w2 w3 : world) (e : exn),
     sign_stream_claim self claim claim_address cert_claim_id name false w2
       = (inl e, w3) ->
     e <> NotASigningKey /\
     e <> AttributeError (str "sign_digest_deterministic")).
Proof.
  intros Hmade.
  assert (cls self = signer_cls /\
          (exists k : signing_key, private_key self = SigningKey k) /\
          log w1 = log w) as (Hcls & (k & Hk) & Hlog).
  { destruct Hmade as [Hgen | Hload].
    - unfold generate in Hgen.
      destruct (CURVE signer_cls); [|discriminate Hgen].
      destruct (SigningKey_generate _ _ (rng w)) as [k r].
      injection Hgen as <- <-. eauto.
    - unfold load_pem in Hload.
      destruct (SigningKey_from_pem _ _) as [e | k]; [discriminate Hload|].
      injection Hload as <- <-. eauto. }
  split; [exact Hcls|]. split; [eauto|]. split; [exact Hlog|].
  split.
  { unfold load_pem.
    destruct (SigningKey_from_pem _ _) as [e | k']; [discriminate|].
    now intros [= _ <-]. }
  intros claim claim_address cert_claim_id name w2 w3 e Hfail.
  destruct (legacy_failure_kinds _ _ _ _ _ _ _ _ Hfail)
    as [Hin | [[Hguard _] | (dgst & Hs)]].
  - cbn [In] in Hin. split; intros ->; intuition discriminate.
  - rewrite Hk in Hguard. discriminate Hguard.
  - rewrite Hk in Hs. apply sign_outcome_SigningKey_failure in Hs.
    subst e. split; discriminate.
Qed.

End Constructed.

Section ConstructedWitnesses.
Import Reference ReferenceInputs.

Lemma failures_of_a_signing_key_witness :
  private_key nist256p_signer = SigningKey key /\
  sign_stream_claim nist256p_signer certificate_claim address cert_id
    (str "Foo") false w0
    = (inl (KeyError (str "stream")),
       after_signing w0 (SigningKey key) hashlib_sha256
         (decoded_addr ++ [Byte.x0c] ++ raw_cert_id)) /\
  In (KeyError (str "stream"))
    [InvalidCertificateId; binascii_Error; InvalidAddress;
     BadDigestError; DecodeError; KeyError (str "stream")].
Proof.
  do 2 (split; [reflexivity|]).
  exact (failures_of_a_signing_key nist256p_signer certificate_claim address
           cert_id (str "Foo") false w0 _ key _ eq_refl eq_refl).
Defined.

Lemma get_signer_class_generates_witness :
  get_signer (PyStr SECP256k1) w0 = (inr SECP256k1Signer, w0) /\
  PyStr SECP256k1 = CURVE_NAME SECP256k1Signer /\
  SECP256k1Signer <> NIST_ECDSASigner.
Proof.
  split; [reflexivity|].
  destruct (get_signer_class_generates (PyStr SECP256k1) w0 w0
              SECP256k1Signer eq_refl) as (_ & Hname & Hbase & _).
  split; [exact Hname | exact Hbase].
Defined.

Lemma constructed_signer_passes_key_guard_witness :
  load_pem NIST256pSigner (str "pem") w0
    = (inr (Signer NIST256pSigner (SigningKey [Byte.x70; Byte.x65; Byte.x6d])),
       w0) /\
  generate NIST384pSigner w0
    = (inr (Signer NIST384pSigner (SigningKey [Byte.x07])), World 8 []) /\
  cls (Signer NIST256pSigner (SigningKey [Byte.x70; Byte.x65; Byte.x6d]))
    = NIST256pSigner /\
  cls (Signer NIST384pSigner (SigningKey [Byte.x07])) = NIST384pSigner.
Proof.
  do 2 (split; [reflexivity|]).
  split.
  - exact (proj1 (constructed_signer_passes_key_guard NIST256pSigner
                    (str "pem") w0 w0 _ (or_intror eq_refl))).
  - exact (proj1 (constructed_signer_passes_key_guard NIST384pSigner
                    [] w0 _ _ (or_introl eq_refl))).
Defined.

End ConstructedWitnesses.
